(** * go-buildkite, [buildkite/builds.go]: the builds service

    A shallow embedding of the build resource model and of the seven
    operations of [BuildsService], with the properties its specification
    states about them.

    Layout: the wire formats (JSON documents, query strings), the struct
    declarations of builds.go with their tags, the transport the service
    talks to, the operations, and then the theorems. *)

From stdpp Require Import base numbers strings list gmap pretty.
From Stdlib Require Import Ascii String ZArith.

Local Open Scope Z_scope.
Local Open Scope string_scope.
Local Open Scope list_scope.

Set Warnings "-register-all".

(** ** Types declared outside builds.go

    builds.go mentions types whose declarations live in other files of the
    package or in the standard library.  They are opaque to this file and
    taken as parameters, each with the little this file needs of it. *)

Class Decls := {
  (** [Timestamp], [Job], [Pipeline]: package types used in [Build]. *)
  Timestamp : Type;
  Job : Type;
  Pipeline : Type;
  (** [time.Time], its zero value [time.Time{}], [IsZero] and
      [Format(time.RFC3339)]. *)
  Time : Type;
  Time_zero : Time;
  IsZero : Time -> bool;
  FormatRFC3339 : Time -> string;
  (** [ListOptions]: the pagination options embedded in
      [BuildsListOptions], their zero value, and the query parameters they
      contribute. *)
  ListOptions : Type;
  ListOptions_zero : ListOptions;
  ListOptions_query : ListOptions -> list (string * string);
  (** [*http.Request] values as handed from [NewRequest] to [Do]. *)
  Request : Type;
  (** What a [*Response] points to; the pointer itself is an [option]. *)
  Response : Type;
  (** Non-nil values of the interface [error]; [error] is an [option]. *)
  Error : Type;
  (** The state of everything behind the transport: network and service. *)
  World : Type
}.

(** ** JSON documents *)

Inductive json :=
| JNull
| JBool (b : bool)
| JNum (n : Z)
| JStr (s : string)
| JArr (items : list json)
| JObj (members : list (string * json)).

Definition keys {A : Type} (members : list (string * A)) : list string :=
  map fst members.

(** Insertion sort on the key, in byte order as [sort.Strings] has it;
    entries of equal key stay in the order they came in. *)
Fixpoint insert_by_key {A : Type} (x : string * A) (l : list (string * A))
  : list (string * A) :=
  match l with
  | [] => [x]
  | y :: l' =>
      if String.leb (fst x) (fst y) then x :: y :: l'
      else y :: insert_by_key x l'
  end.

Definition sort_by_key {A : Type} (l : list (string * A)) : list (string * A) :=
  fold_right insert_by_key [] l.

(** ** Struct declarations and tags

    A field as the source declares it: Go name, Go type, and the struct tag
    split into the wire name and the options that follow it. *)

Inductive gotype :=
| TString
| TBool
| TInt
| TInt64
| TPtr (t : gotype)
| TMap (k v : gotype)
| TSlice (t : gotype)
| TInterface
| TNamed (name : string).

Record field := Field {
  fname : string;
  ftype : gotype;
  ftag : string;
  fopts : list string
}.

Definition has_opt (o : string) (f : field) : bool :=
  existsb (String.eqb o) (fopts f).

Definition omitempty (f : field) : bool := has_opt "omitempty" f.

Definition Author_decl : list field := [
  Field "Name"  TString "name"  ["omitempty"];
  Field "Email" TString "email" ["omitempty"]
].

Definition CreateBuild_decl : list field := [
  Field "Commit"  TString "commit"  [];
  Field "Branch"  TString "branch"  [];
  Field "Message" TString "message" [];
  Field "Author" (TNamed "Author") "author" ["omitempty"];
  Field "Env" (TMap TString TString) "env" ["omitempty"];
  Field "MetaData" (TMap TString TString) "meta_data" ["omitempty"];
  Field "IgnorePipelineBranchFilters" TBool "ignore_pipeline_branch_filters" ["omitempty"];
  Field "PullRequestBaseBranch" TString "pull_request_base_branch" ["omitempty"];
  Field "PullRequestID" TInt64 "pull_request_id" ["omitempty"];
  Field "PullRequestRepository" TString "pull_request_repository" ["omitempty"]
].

Definition Creator_decl : list field := [
  Field "AvatarURL" TString "avatar_url" [];
  Field "CreatedAt" (TPtr (TNamed "Timestamp")) "created_at" [];
  Field "Email" TString "email" [];
  Field "ID" TString "id" [];
  Field "Name" TString "name" []
].

Definition PullRequest_decl : list field := [
  Field "ID" (TPtr TString) "id" ["omitempty"];
  Field "Base" (TPtr TString) "base" ["omitempty"];
  Field "Repository" (TPtr TString) "repository" ["omitempty"]
].

Definition Build_decl : list field := [
  Field "ID" (TPtr TString) "id" ["omitempty"];
  Field "URL" (TPtr TString) "url" ["omitempty"];
  Field "WebURL" (TPtr TString) "web_url" ["omitempty"];
  Field "Number" (TPtr TInt) "number" ["omitempty"];
  Field "State" (TPtr TString) "state" ["omitempty"];
  Field "Blocked" (TPtr TBool) "blocked" ["omitempty"];
  Field "Message" (TPtr TString) "message" ["omitempty"];
  Field "Commit" (TPtr TString) "commit" ["omitempty"];
  Field "Branch" (TPtr TString) "branch" ["omitempty"];
  Field "Env" (TMap TString TInterface) "env" ["omitempty"];
  Field "CreatedAt" (TPtr (TNamed "Timestamp")) "created_at" ["omitempty"];
  Field "ScheduledAt" (TPtr (TNamed "Timestamp")) "scheduled_at" ["omitempty"];
  Field "StartedAt" (TPtr (TNamed "Timestamp")) "started_at" ["omitempty"];
  Field "FinishedAt" (TPtr (TNamed "Timestamp")) "finished_at" ["omitempty"];
  Field "MetaData" TInterface "meta_data" ["omitempty"];
  Field "Creator" (TPtr (TNamed "Creator")) "creator" ["omitempty"];
  Field "Jobs" (TSlice (TPtr (TNamed "Job"))) "jobs" ["omitempty"];
  Field "Pipeline" (TPtr (TNamed "Pipeline")) "pipeline" ["omitempty"];
  Field "PullRequest" (TPtr (TNamed "PullRequest")) "pull_request" ["omitempty"]
].

(** The seven tagged fields of [BuildsListOptions]; the eighth, the embedded
    [ListOptions], carries no tag. *)
Definition BuildsListOptions_decl : list field := [
  Field "Creator" TString "creator" ["omitempty"];
  Field "CreatedFrom" (TNamed "time.Time") "created_from" ["omitempty"];
  Field "CreatedTo" (TNamed "time.Time") "created_to" ["omitempty"];
  Field "FinishedFrom" (TNamed "time.Time") "finished_from" ["omitempty"];
  Field "State" (TSlice TString) "state" ["brackets"; "omitempty"];
  Field "Branch" TString "branch" ["omitempty"];
  Field "Commit" TString "commit" ["omitempty"]
].

(** The types whose zero value is [nil]: a field of such a type records by
    itself whether it was ever set. *)
Definition nullable (t : gotype) : bool :=
  match t with
  | TPtr _ | TMap _ _ | TSlice _ | TInterface => true
  | TString | TBool | TInt | TInt64 | TNamed _ => false
  end.

(** Every optional field of [s] has a type whose zero value is nil. *)
Definition marked (s : list field) : bool :=
  forallb (fun f => implb (omitempty f) (nullable (ftype f))) s.

(** *** What decoding leaves in a field

    What a field holds after decoding: nil; a value held in place, given by
    its JSON image; or a pointer, map, slice or interface that was
    allocated for the value sent. *)

Inductive held :=
| HNil
| HDirect (j : json)
| HAllocated (j : json).

(** The JSON image of the zero value of a type that is held directly. *)
Definition zero_wire (t : gotype) : json :=
  match t with
  | TString => JStr ""
  | TBool => JBool false
  | TInt | TInt64 => JNum 0
  | TNamed _ => JObj []
  | TPtr _ | TMap _ _ | TSlice _ | TInterface => JNull
  end.

Definition zero_held (t : gotype) : held :=
  if nullable t then HNil else HDirect (zero_wire t).

(** Modelled from the spec: [Do] is declared outside builds.go; it "decodes
    the response body into destinationPointer".  The destination starts at
    its zero value; a field whose key is absent from the object ([None]),
    or carries [null], is left as it is; a key that is present sets the
    field, allocating where the type is a pointer, map, slice or
    interface. *)
Definition decode_field (t : gotype) (w : option json) : held :=
  match w with
  | None | Some JNull => zero_held t
  | Some j => if nullable t then HAllocated j else HDirect j
  end.

(** ** The resource model as typed records

    A pointer is an [option] ([None] is nil); so are a slice, a map and an
    interface where the code can observe nil.  The maps and the slice of
    the request types are only encoded, and the encoders see nil and empty
    alike: they are a [gmap] and a [list].  Each struct sits in a module of
    its name so that fields keep the names they have in Go. *)

Definition slice (A : Type) : Type := option (list A).

Module Author.
Record t := mk { Name : string; Email : string }.
Definition zero : t := mk "" "".
End Author.

Module CreateBuild.
Record t := mk {
  Commit : string;
  Branch : string;
  Message : string;
  (* Optional fields *)
  Author : Author.t;
  Env : gmap string string;
  MetaData : gmap string string;
  IgnorePipelineBranchFilters : bool;
  PullRequestBaseBranch : string;
  PullRequestID : Z;
  PullRequestRepository : string
}.
End CreateBuild.

Module Creator.
Record t `{Decls} := mk {
  AvatarURL : string;
  CreatedAt : option Timestamp;
  Email : string;
  ID : string;
  Name : string
}.
End Creator.

Module PullRequest.
Record t := mk {
  ID : option string;
  Base : option string;
  Repository : option string
}.
End PullRequest.

Module Build.
Record t `{Decls} := mk {
  ID : option string;
  URL : option string;
  WebURL : option string;
  Number : option Z;
  State : option string;
  Blocked : option bool;
  Message : option string;
  Commit : option string;
  Branch : option string;
  Env : option (gmap string json);
  CreatedAt : option Timestamp;
  ScheduledAt : option Timestamp;
  StartedAt : option Timestamp;
  FinishedAt : option Timestamp;
  MetaData : option json;
  Creator : option Creator.t;
  (* jobs run during the build *)
  Jobs : slice (option Job);
  (* the pipeline this build is associated with *)
  Pipeline : option Pipeline;
  (* the pull request this build is associated with *)
  PullRequest : option PullRequest.t
}.

(** [Build{}] and [*new(Build)]. *)
Definition zero `{Decls} : t :=
  {| ID := None; URL := None; WebURL := None; Number := None;
     State := None; Blocked := None; Message := None; Commit := None;
     Branch := None; Env := None; CreatedAt := None; ScheduledAt := None;
     StartedAt := None; FinishedAt := None; MetaData := None;
     Creator := None; Jobs := None; Pipeline := None; PullRequest := None |}.
End Build.

Module BuildsListOptions.
Record t `{Decls} := mk {
  Creator : string;
  CreatedFrom : Time;
  CreatedTo : Time;
  FinishedFrom : Time;
  State : list string;
  Branch : string;
  Commit : string;
  ListOptions_ : ListOptions
}.
Arguments mk {_} _ _ _ _ _ _ _ _.
End BuildsListOptions.

(** ** [encoding/json]: how a request body is encoded

    The values the encoder meets in a [CreateBuild]: each struct value
    carries its declared fields, so the tags drive the encoding. *)

Inductive value :=
| VString (s : string)
| VBool (b : bool)
| VInt (n : Z)
| VPtr (p : option value)
| VMap (entries : list (string * value))
| VStruct (fields : list (field * value)).

(** [isEmptyValue] of encoding/json: false, 0, a nil pointer, and any empty
    map or string are empty; a struct value never is. *)
Definition isEmptyValue (v : value) : bool :=
  match v with
  | VString s => Nat.eqb (String.length s) 0
  | VBool b => negb b
  | VInt n => (n =? 0)%Z
  | VPtr p => match p with None => true | Some _ => false end
  | VMap entries => Nat.eqb (List.length entries) 0
  | VStruct _ => false
  end.

(** *** Strings on the wire

    encoding/json writes a string rune by rune as [utf8.DecodeRuneInString]
    finds them, and writes U+FFFD for every byte at which that finds no
    valid encoding.  [first] is the table of unicode/utf8 by the same
    name: the length of the sequence a byte starts (0 when it starts none)
    and the range its second byte must lie in. *)

Definition in_range (lo hi : N) (c : ascii) : bool :=
  ((lo <=? N_of_ascii c) && (N_of_ascii c <=? hi))%N.

Definition first (c : ascii) : nat * (N * N) :=
  let n := N_of_ascii c in
  (if n <? 0x80 then (1%nat, (0x00, 0x7F))
   else if n <? 0xC2 then (0%nat, (0x00, 0x00))
   else if n <=? 0xDF then (2%nat, (0x80, 0xBF))
   else if n =? 0xE0 then (3%nat, (0xA0, 0xBF))
   else if n <=? 0xEC then (3%nat, (0x80, 0xBF))
   else if n =? 0xED then (3%nat, (0x80, 0x9F))
   else if n <=? 0xEF then (3%nat, (0x80, 0xBF))
   else if n =? 0xF0 then (4%nat, (0x90, 0xBF))
   else if n <=? 0xF3 then (4%nat, (0x80, 0xBF))
   else if n =? 0xF4 then (4%nat, (0x80, 0x8F))
   else (0%nat, (0x00, 0x00)))%N.

(** A continuation byte: [locb <= c <= hicb]. *)
Definition is_continuation (c : ascii) : bool := in_range 0x80 0xBF c.

(** The width [utf8.DecodeRuneInString] reports for the rune at the head of
    a string that is not empty; [None] when it reports [(RuneError, 1)]:
    the head byte starts no sequence, the string ends too early, or a
    following byte is out of range. *)
Definition rune_width (s : string) : option nat :=
  match s with
  | EmptyString => None
  | String c s1 =>
      let '(size, (lo, hi)) := first c in
      match size, s1 with
      | 1%nat, _ => Some 1%nat
      | 2%nat, String c1 _ =>
          if in_range lo hi c1 then Some 2%nat else None
      | 3%nat, String c1 (String c2 _) =>
          if in_range lo hi c1 && is_continuation c2 then Some 3%nat else None
      | 4%nat, String c1 (String c2 (String c3 _)) =>
          if in_range lo hi c1 && is_continuation c2 && is_continuation c3
          then Some 4%nat else None
      | _, _ => None
      end
  end.

(** U+FFFD, the replacement character, in UTF-8. *)
Definition replacement : string :=
  String "239"%char (String "191"%char (String "189"%char EmptyString)).

(** The string a JSON reader gets back for [s]: every rune as it is, U+FFFD
    for every byte that starts no rune. *)
Fixpoint coerce_utf8 (s : string) : string :=
  match s with
  | EmptyString => EmptyString
  | String c s1 =>
      match rune_width s, s1 with
      | Some 1%nat, _ => String c (coerce_utf8 s1)
      | Some 2%nat, String c1 s2 => String c (String c1 (coerce_utf8 s2))
      | Some 3%nat, String c1 (String c2 s3) =>
          String c (String c1 (String c2 (coerce_utf8 s3)))
      | Some 4%nat, String c1 (String c2 (String c3 s4)) =>
          String c (String c1 (String c2 (String c3 (coerce_utf8 s4))))
      | _, _ => replacement +:+ coerce_utf8 s1
      end
  end.

(** A string the encoder leaves as it is: valid UTF-8 (each replacement
    makes the string longer). *)
Definition utf8_clean (s : string) : Prop := coerce_utf8 s = s.

(** [json.Marshal]: a string with its invalid bytes replaced; struct fields
    in declaration order under their tag names, an [omitempty] field left
    out when its value is empty; map entries sorted by key, the key written
    as a string is. *)
Fixpoint marshal (v : value) : json :=
  match v with
  | VString s => JStr (coerce_utf8 s)
  | VBool b => JBool b
  | VInt n => JNum n
  | VPtr None => JNull
  | VPtr (Some v') => marshal v'
  | VMap entries =>
      JObj (map (fun kv => (coerce_utf8 (fst kv), snd kv))
              (sort_by_key (map (fun kv => (fst kv, marshal (snd kv))) entries)))
  | VStruct fields =>
      JObj (flat_map (fun fv =>
                        if omitempty (fst fv) && isEmptyValue (snd fv) then []
                        else [(ftag (fst fv), marshal (snd fv))])
                     fields)
  end.

Definition reflect_map (m : gmap string string) : value :=
  VMap (map (fun kv => (fst kv, VString (snd kv))) (map_to_list m)).

Definition reflect_Author (a : Author.t) : value :=
  VStruct (combine Author_decl
             [VString (Author.Name a); VString (Author.Email a)]).

Definition reflect_CreateBuild (b : CreateBuild.t) : value :=
  VStruct (combine CreateBuild_decl
             [VString (CreateBuild.Commit b);
              VString (CreateBuild.Branch b);
              VString (CreateBuild.Message b);
              reflect_Author (CreateBuild.Author b);
              reflect_map (CreateBuild.Env b);
              reflect_map (CreateBuild.MetaData b);
              VBool (CreateBuild.IgnorePipelineBranchFilters b);
              VString (CreateBuild.PullRequestBaseBranch b);
              VInt (CreateBuild.PullRequestID b);
              VString (CreateBuild.PullRequestRepository b)]).

(** The members of the object a [CreateBuild] is encoded as. *)
Definition body_members (b : CreateBuild.t) : list (string * json) :=
  match marshal (reflect_CreateBuild b) with
  | JObj members => members
  | _ => []
  end.

(** One [omitempty] member. *)
Definition optional (key : string) (v : value) : list (string * json) :=
  if isEmptyValue v then [] else [(key, marshal v)].

(** [CreateBuild{Commit: "abc123", Branch: "main", Message: "deploy"}]. *)
Definition deploy : CreateBuild.t :=
  {| CreateBuild.Commit := "abc123";
     CreateBuild.Branch := "main";
     CreateBuild.Message := "deploy";
     CreateBuild.Author := Author.zero;
     CreateBuild.Env := ∅;
     CreateBuild.MetaData := ∅;
     CreateBuild.IgnorePipelineBranchFilters := false;
     CreateBuild.PullRequestBaseBranch := "";
     CreateBuild.PullRequestID := 0;
     CreateBuild.PullRequestRepository := "" |}.

(** A [CreateBuild] all of whose strings are valid UTF-8: the three
    required ones, those of the author, the keys and values of the two
    maps, and the two of the pull request. *)
Definition clean_map (m : gmap string string) : Prop :=
  map_Forall (fun k v => utf8_clean k /\ utf8_clean v) m.

Definition clean_author (a : Author.t) : Prop :=
  utf8_clean (Author.Name a) /\ utf8_clean (Author.Email a).

Definition clean_build (b : CreateBuild.t) : Prop :=
  utf8_clean (CreateBuild.Commit b)
  /\ utf8_clean (CreateBuild.Branch b)
  /\ utf8_clean (CreateBuild.Message b)
  /\ clean_author (CreateBuild.Author b)
  /\ clean_map (CreateBuild.Env b)
  /\ clean_map (CreateBuild.MetaData b)
  /\ utf8_clean (CreateBuild.PullRequestBaseBranch b)
  /\ utf8_clean (CreateBuild.PullRequestRepository b).

(** The [body interface{}] argument of [NewRequest] as builds.go passes it:
    the untyped nil, or a [*CreateBuild]. *)
Inductive Body :=
| BodyNil
| BodyCreateBuild (b : option CreateBuild.t).

(** Modelled from the spec: [NewRequest] is declared outside builds.go; it
    "serializes body (when non-nil) using a standard structured-data
    encoding keyed by the field tags".  [None]: no body is written. *)
Definition encode_body (body : Body) : option json :=
  match body with
  | BodyNil => None
  | BodyCreateBuild b => Some (marshal (VPtr (reflect_CreateBuild <$> b)))
  end.

(** ** [fmt.Sprintf] with string operands

    The verb [%s] takes the next operand; a verb without operand and
    operands without verb are reported the way fmt does.  builds.go uses no
    other verb. *)

Definition Sprintf_extra (a : list string) : string :=
  match a with
  | [] => ""
  | _ => "%!(EXTRA " +:+ String.concat ", " (map (fun x => "string=" +:+ x) a) +:+ ")"
  end.

Fixpoint Sprintf (format : string) (a : list string) : string :=
  match format with
  | EmptyString => Sprintf_extra a
  | String "%"%char (String "s"%char rest) =>
      match a with
      | x :: a' => x +:+ Sprintf rest a'
      | [] => "%!s(MISSING)" +:+ Sprintf rest []
      end
  | String c rest => String c (Sprintf rest a)
  end.

(** ** Query strings

    A query string as [url.Values.Encode] writes one: keys in sorted order,
    [key=value] pairs joined by [&], both sides escaped as
    [url.QueryEscape] does. *)

Definition upperhex : string := "0123456789ABCDEF".

Definition hexchar (n : N) : ascii :=
  match String.get (N.to_nat n) upperhex with
  | Some c => c
  | None => "0"%char
  end.

Definition is_unreserved (c : ascii) : bool :=
  let n := N_of_ascii c in
  ((97 <=? n) && (n <=? 122) || (65 <=? n) && (n <=? 90)
   || (48 <=? n) && (n <=? 57))%N
  || existsb (Ascii.eqb c) ["-"; "_"; "."; "~"]%char.

Definition escape_byte (c : ascii) : string :=
  if is_unreserved c then String c EmptyString
  else if Ascii.eqb c " "%char then "+"
  else String "%"%char
         (String (hexchar (N_of_ascii c / 16)%N)
            (String (hexchar (N_of_ascii c mod 16)%N) EmptyString)).

Fixpoint QueryEscape (s : string) : string :=
  match s with
  | EmptyString => EmptyString
  | String c rest => escape_byte c +:+ QueryEscape rest
  end.

Definition Encode (v : list (string * string)) : string :=
  String.concat "&"
    (map (fun kv => QueryEscape (fst kv) +:+ "=" +:+ QueryEscape (snd kv))
         (sort_by_key v)).

(** *** The options as query parameters

    The values a filter field can hold, and the parameters a field
    contributes by its [url] tag: none when it is [omitempty] and empty (a
    zero time counts as empty), one per element for a slice, under the name
    with [[]] appended when it is tagged [brackets]. *)
Inductive qvalue `{Decls} :=
| QString (s : string)
| QTime (t : Time)
| QStrings (l : list string).

Definition q_isEmptyValue `{Decls} (v : qvalue) : bool :=
  match v with
  | QString s => Nat.eqb (String.length s) 0
  | QTime t => IsZero t
  | QStrings l => Nat.eqb (List.length l) 0
  end.

Definition q_name (f : field) : string :=
  if has_opt "brackets" f then ftag f +:+ "[]" else ftag f.

Definition q_field `{Decls} (fv : field * qvalue) : list (string * string) :=
  let (f, v) := fv in
  if omitempty f && q_isEmptyValue v then []
  else match v with
       | QString s => [(ftag f, s)]
       | QTime t => [(ftag f, FormatRFC3339 t)]
       | QStrings l => map (pair (q_name f)) l
       end.

Definition reflect_BuildsListOptions `{Decls} (o : BuildsListOptions.t)
  : list (field * qvalue) :=
  combine BuildsListOptions_decl
    [QString (BuildsListOptions.Creator o);
     QTime (BuildsListOptions.CreatedFrom o);
     QTime (BuildsListOptions.CreatedTo o);
     QTime (BuildsListOptions.FinishedFrom o);
     QStrings (BuildsListOptions.State o);
     QString (BuildsListOptions.Branch o);
     QString (BuildsListOptions.Commit o)].

(** The parameters of the filter fields, then those of the embedded
    pagination options. *)
Definition filter_values `{Decls} (o : BuildsListOptions.t) : list (string * string) :=
  flat_map q_field (reflect_BuildsListOptions o).

Definition Values `{Decls} (o : BuildsListOptions.t) : list (string * string) :=
  filter_values o ++ ListOptions_query (BuildsListOptions.ListOptions_ o).

Definition with_query (s : string) (q : string) : string :=
  match q with
  | EmptyString => s
  | _ => s +:+ "?" +:+ q
  end.

(** Modelled from the spec: [addOptions] is declared outside builds.go.  It
    "encodes a filter/options value into a query string appended to path":
    no query string for an absent options argument; otherwise each
    populated filter field under its declared name, the array-valued
    [state] with bracket notation, zero-valued fields omitted. *)
Definition addOptions_model `{Decls} (s : string) (opt : option BuildsListOptions.t)
  : string * option Error :=
  match opt with
  | None => (s, None)
  | Some o => (with_query s (Encode (Values o)), None)
  end.

(** ** The transport

    [NewRequest] builds a request and touches nothing else; [Do] runs it
    against the world and decodes into the destination it is given, a
    [*Build] or a [*[]Build] in this file.  Both are declared outside
    builds.go and are fields of the client the service holds; the service
    and its client are taken to be there (not nil). *)

Inductive dest := dBuild | dBuilds.

Definition dest_type `{Decls} (d : dest) : Type :=
  match d with
  | dBuild => Build.t
  | dBuilds => slice Build.t
  end.

Record Client `{Decls} := {
  NewRequest : string -> string -> Body -> Request * option Error;
  Do : forall d : dest, Request -> dest_type d -> World ->
       (option Response * option Error * dest_type d) * World
}.

Record BuildsService `{Decls} := { client : Client }.

(** What the transport is asked to do, in the order it is asked. *)
Inductive Event `{Decls} :=
| EvNewRequest (method urlStr : string) (body : Body)
| EvDo (req : Request).

(** A computation reads and updates the world and emits events. *)
Definition M `{Decls} (A : Type) : Type := World -> A * World * list Event.

#[global] Instance M_ret `{Decls} : MRet M :=
  fun A (a : A) w => (a, w, []).

#[global] Instance M_bind `{Decls} : MBind M :=
  fun A B (k : A -> M B) (m : M A) w =>
    let '(a, w1, t1) := m w in
    let '(b, w2, t2) := k a w1 in
    (b, w2, t1 ++ t2).

Definition value_of `{Decls} {A : Type} (r : A * World * list Event) : A := fst (fst r).
Definition world_of `{Decls} {A : Type} (r : A * World * list Event) : World := snd (fst r).
Definition trace_of `{Decls} {A : Type} (r : A * World * list Event) : list Event := snd r.

Definition call_NewRequest `{Decls} (c : Client) (method urlStr : string) (body : Body)
  : M (Request * option Error) :=
  fun w => (NewRequest c method urlStr body, w, [EvNewRequest method urlStr body]).

Definition call_Do `{Decls} (c : Client) (d : dest) (req : Request) (v : dest_type d)
  : M (option Response * option Error * dest_type d) :=
  fun w => let (r, w') := Do c d req v w in (r, w', [EvDo req]).

(** ** The operations of [BuildsService]

    [addOptions] is a function of the package, declared outside builds.go;
    the operations take it as a parameter. *)

Section Operations.
Context `{Decls}.
Variable bs : BuildsService.
Variable addOptions : string -> option BuildsListOptions.t -> string * option Error.

(** Cancel triggers a cancel for the target build. *)
Definition Cancel (org pipeline build : string) : M (option Build.t * option Error) :=
  let u := Sprintf "v2/organizations/%s/pipelines/%s/builds/%s/cancel"
             [org; pipeline; build] in
  '(req, err) ← call_NewRequest (client bs) "PUT" u BodyNil;
  match err with
  | Some _ => mret (None, err)
  | None =>
      let result := Build.zero in
      '(_, err, result) ← call_Do (client bs) dBuild req result;
      match err with
      | Some _ => mret (None, err)
      | None => mret (Some result, None)
      end
  end.

(** Create a build. *)
Definition Create (org pipeline : string) (b : option CreateBuild.t)
  : M (option Build.t * option Response * option Error) :=
  let u := Sprintf "v2/organizations/%s/pipelines/%s/builds" [org; pipeline] in
  '(req, err) ← call_NewRequest (client bs) "POST" u (BodyCreateBuild b);
  match err with
  | Some _ => mret (None, None, err)
  | None =>
      let build := Build.zero in
      '(resp, err, build) ← call_Do (client bs) dBuild req build;
      match err with
      | Some _ => mret (None, resp, err)
      | None => mret (Some build, resp, err)
      end
  end.

(** Get fetches a build. *)
Definition Get (org pipeline id : string)
  : M (option Build.t * option Response * option Error) :=
  let u := Sprintf "v2/organizations/%s/pipelines/%s/builds/%s" [org; pipeline; id] in
  '(req, err) ← call_NewRequest (client bs) "GET" u BodyNil;
  match err with
  | Some _ => mret (None, None, err)
  | None =>
      let build := Build.zero in
      '(resp, err, build) ← call_Do (client bs) dBuild req build;
      match err with
      | Some _ => mret (None, resp, err)
      | None => mret (Some build, resp, err)
      end
  end.

(** List the builds for the current user. *)
Definition List (opt : option BuildsListOptions.t)
  : M (slice Build.t * option Response * option Error) :=
  let u := Sprintf "v2/builds" [] in
  let '(u, err) := addOptions u opt in
  match err with
  | Some _ => mret (None, None, err)
  | None =>
      '(req, err) ← call_NewRequest (client bs) "GET" u BodyNil;
      match err with
      | Some _ => mret (None, None, err)
      | None =>
          let orgs : slice Build.t := None in
          '(resp, err, orgs) ← call_Do (client bs) dBuilds req orgs;
          match err with
          | Some _ => mret (None, resp, err)
          | None => mret (orgs, resp, err)
          end
      end
  end.

(** ListByOrg lists the builds within the specified organisation. *)
Definition ListByOrg (org : string) (opt : option BuildsListOptions.t)
  : M (slice Build.t * option Response * option Error) :=
  let u := Sprintf "v2/organizations/%s/builds" [org] in
  let '(u, err) := addOptions u opt in
  match err with
  | Some _ => mret (None, None, err)
  | None =>
      '(req, err) ← call_NewRequest (client bs) "GET" u BodyNil;
      match err with
      | Some _ => mret (None, None, err)
      | None =>
          let orgs : slice Build.t := None in
          '(resp, err, orgs) ← call_Do (client bs) dBuilds req orgs;
          match err with
          | Some _ => mret (None, resp, err)
          | None => mret (orgs, resp, err)
          end
      end
  end.

(** ListByPipeline lists the builds for a pipeline within the specified
    organisation. *)
Definition ListByPipeline (org pipeline : string) (opt : option BuildsListOptions.t)
  : M (slice Build.t * option Response * option Error) :=
  let u := Sprintf "v2/organizations/%s/pipelines/%s/builds" [org; pipeline] in
  let '(u, err) := addOptions u opt in
  match err with
  | Some _ => mret (None, None, err)
  | None =>
      '(req, err) ← call_NewRequest (client bs) "GET" u BodyNil;
      match err with
      | Some _ => mret (None, None, err)
      | None =>
          let orgs : slice Build.t := None in
          '(resp, err, orgs) ← call_Do (client bs) dBuilds req orgs;
          match err with
          | Some _ => mret (None, resp, err)
          | None => mret (orgs, resp, err)
          end
      end
  end.

(** Rebuild triggers a rebuild for the target build. *)
Definition Rebuild (org pipeline build : string) : M (option Build.t * option Error) :=
  let u := Sprintf "v2/organizations/%s/pipelines/%s/builds/%s/rebuild"
             [org; pipeline; build] in
  '(req, err) ← call_NewRequest (client bs) "PUT" u BodyNil;
  match err with
  | Some _ => mret (None, err)
  | None =>
      let result := Build.zero in
      '(_, err, result) ← call_Do (client bs) dBuild req result;
      match err with
      | Some _ => mret (None, err)
      | None => mret (Some result, None)
      end
  end.

(** What List, ListByOrg and ListByPipeline have in common, from the call
    of [addOptions] on: each of the three is this at its own path. *)
Definition list_from (u : string) (opt : option BuildsListOptions.t)
  : M (slice Build.t * option Response * option Error) :=
  let '(u, err) := addOptions u opt in
  match err with
  | Some _ => mret (None, None, err)
  | None =>
      '(req, err) ← call_NewRequest (client bs) "GET" u BodyNil;
      match err with
      | Some _ => mret (None, None, err)
      | None =>
          let orgs : slice Build.t := None in
          '(resp, err, orgs) ← call_Do (client bs) dBuilds req orgs;
          match err with
          | Some _ => mret (None, resp, err)
          | None => mret (orgs, resp, err)
          end
      end
  end.

(** *** One view of all seven

    A call with its arguments, and what it hands back: the result, the raw
    response where the signature has one, and the error. *)

Inductive Call :=
| CallCancel (org pipeline build : string)
| CallCreate (org pipeline : string) (b : option CreateBuild.t)
| CallGet (org pipeline id : string)
| CallList (opt : option BuildsListOptions.t)
| CallListByOrg (org : string) (opt : option BuildsListOptions.t)
| CallListByPipeline (org pipeline : string) (opt : option BuildsListOptions.t)
| CallRebuild (org pipeline build : string).

Inductive Result :=
| RBuild (b : option Build.t)
| RBuilds (l : slice Build.t).

Inductive RawResponse :=
| NotReturned
| Returned (resp : option Response).

Record Outcome := {
  result : Result;
  raw : RawResponse;
  err : option Error
}.

Definition is_nil_result (r : Result) : bool :=
  match r with
  | RBuild None | RBuilds None => true
  | _ => false
  end.

Definition exec (c : Call) : M Outcome :=
  match c with
  | CallCancel org pipeline build =>
      '(b, e) ← Cancel org pipeline build;
      mret {| result := RBuild b; raw := NotReturned; err := e |}
  | CallCreate org pipeline cb =>
      '(b, r, e) ← Create org pipeline cb;
      mret {| result := RBuild b; raw := Returned r; err := e |}
  | CallGet org pipeline id =>
      '(b, r, e) ← Get org pipeline id;
      mret {| result := RBuild b; raw := Returned r; err := e |}
  | CallList opt =>
      '(l, r, e) ← List opt;
      mret {| result := RBuilds l; raw := Returned r; err := e |}
  | CallListByOrg org opt =>
      '(l, r, e) ← ListByOrg org opt;
      mret {| result := RBuilds l; raw := Returned r; err := e |}
  | CallListByPipeline org pipeline opt =>
      '(l, r, e) ← ListByPipeline org pipeline opt;
      mret {| result := RBuilds l; raw := Returned r; err := e |}
  | CallRebuild org pipeline build =>
      '(b, e) ← Rebuild org pipeline build;
      mret {| result := RBuild b; raw := NotReturned; err := e |}
  end.

End Operations.

(** ** A test double

    One instance of everything taken as a parameter above, to run the
    operations on: times are kept as their RFC 3339 text, pagination is a
    page number and a page size, a request is what [NewRequest] was given
    with the body encoded, a response is its status code, and the world is
    the state of the build under each path together with the number of
    requests served. *)

Definition demo_ListOptions_query (lo : Z * Z) : list (string * string) :=
  (if (fst lo =? 0)%Z then [] else [("page", pretty (fst lo))]) ++
  (if (snd lo =? 0)%Z then [] else [("per_page", pretty (snd lo))]).

Definition demo_decls : Decls := {|
  Timestamp := string;
  Job := unit;
  Pipeline := unit;
  Time := string;
  Time_zero := "0001-01-01T00:00:00Z";
  IsZero := String.eqb "0001-01-01T00:00:00Z";
  FormatRFC3339 := fun t => t;
  ListOptions := Z * Z;
  ListOptions_zero := (0, 0)%Z;
  ListOptions_query := demo_ListOptions_query;
  Request := option (string * string * option json);
  Response := Z;
  Error := string;
  World := gmap string string * nat
|}.

Definition has_control_byte (s : string) : bool :=
  existsb (fun c => (N_of_ascii c <? 32)%N || (N_of_ascii c =? 127)%N)
          (list_ascii_of_string s).

Section Demo.
#[local] Existing Instance demo_decls.

Definition demo_NewRequest (method urlStr : string) (body : Body)
  : Request * option Error :=
  if has_control_byte urlStr
  then (None, Some "net/url: invalid control character in URL")
  else (Some (method, urlStr, encode_body body), None).

Definition demo_build (id state : string) : Build.t :=
  {| Build.ID := Some id; Build.URL := None; Build.WebURL := None;
     Build.Number := None; Build.State := Some state; Build.Blocked := None;
     Build.Message := None; Build.Commit := None; Build.Branch := None;
     Build.Env := None; Build.CreatedAt := None; Build.ScheduledAt := None;
     Build.StartedAt := None; Build.FinishedAt := None;
     Build.MetaData := None; Build.Creator := None; Build.Jobs := None;
     Build.Pipeline := None; Build.PullRequest := None |}.

Definition demo_Do (d : dest) (req : Request) (v : dest_type d) (w : World)
  : (option Response * option Error * dest_type d) * World :=
  match req with
  | None => ((None, Some "nil request", v), w)
  | Some (_, urlStr, _) =>
      let w' : World := (fst w, S (snd w)) in
      match d return dest_type d ->
                     (option Response * option Error * dest_type d) * World with
      | dBuild => fun v =>
          match fst w !! urlStr with
          | Some state => ((Some 200%Z, None, demo_build urlStr state), w')
          | None => ((Some 404%Z, Some "404 Not Found", v), w')
          end
      | dBuilds => fun v =>
          ((Some 200%Z, None,
            Some (map (fun kv => demo_build (fst kv) (snd kv)) (map_to_list (fst w)))),
           w')
      end v
  end.

(** A line feed, as at the end of a name read from a file. *)
Definition line_feed : string := String "010"%char EmptyString.

Definition demo_client : Client := {| NewRequest := demo_NewRequest; Do := demo_Do |}.

Definition demo_service : BuildsService := {| client := demo_client |}.

Definition demo_world : World :=
  ({[ "v2/organizations/acme/pipelines/widget-ci/builds" := "scheduled";
      "v2/organizations/acme/pipelines/widget-ci/builds/7" := "running";
      "v2/organizations/acme/pipelines/widget-ci/builds/7/cancel" := "canceling";
      "v2/organizations/acme/pipelines/widget-ci/builds/7/rebuild" := "scheduled" ]},
   0%nat).

End Demo.

(** ** Reading traces and comparing clients *)

Definition is_Do `{Decls} (e : Event) : bool :=
  match e with
  | EvDo _ => true
  | EvNewRequest _ _ _ => false
  end.

(** How often the transport was executed. *)
Definition executions `{Decls} (t : list Event) : nat :=
  List.length (List.filter is_Do t).

(** The requests that were constructed, in order. *)
Definition constructed `{Decls} (t : list Event) : list Event :=
  List.filter (fun e => negb (is_Do e)) t.

(** The operations whose result is a single [*Build]. *)
Definition returns_build `{Decls} (c : Call) : bool :=
  match c with
  | CallCancel _ _ _ | CallCreate _ _ _ | CallGet _ _ _ | CallRebuild _ _ _ => true
  | CallList _ | CallListByOrg _ _ | CallListByPipeline _ _ _ => false
  end.

(** A client that differs from [c] only in the raw response [Do] hands
    back. *)
Definition with_response `{Decls} (f : option Response -> option Response) (c : Client)
  : Client :=
  {| NewRequest := NewRequest c;
     Do := fun d req v w =>
             let '(resp, err, v', w') := Do c d req v w in
             ((f resp, err, v'), w') |}.

(** ** The course of a call

    Every call takes one of four courses: [addOptions] fails; [NewRequest]
    fails; [Do] fails; or all three succeed.  [Course] records, for each,
    what was asked of the transport, the world the call leaves, and what
    the caller gets. *)

Definition dest_of `{Decls} (c : Call) : dest :=
  if returns_build c then dBuild else dBuilds.

(** The destination a call hands to [Do]: a zero [Build], or a nil slice. *)
Definition fresh `{Decls} (d : dest) : dest_type d :=
  match d with
  | dBuild => Build.zero
  | dBuilds => None
  end.

Definition decoded `{Decls} (d : dest) : dest_type d -> Result :=
  match d with
  | dBuild => fun b => RBuild (Some b)
  | dBuilds => fun l => RBuilds l
  end.

(** The arguments a call hands to [addOptions], if it calls it. *)
Definition options_call `{Decls} (c : Call) : option (string * option BuildsListOptions.t) :=
  match c with
  | CallList opt => Some ("v2/builds", opt)
  | CallListByOrg org opt =>
      Some ("v2/organizations/" +:+ org +:+ "/builds", opt)
  | CallListByPipeline org pipeline opt =>
      Some ("v2/organizations/" +:+ org +:+ "/pipelines/" +:+ pipeline +:+ "/builds", opt)
  | _ => None
  end.

Definition no_response `{Decls} (r : RawResponse) : Prop :=
  r = NotReturned \/ r = Returned None.

Definition response_or_none `{Decls} (resp : option Response) (r : RawResponse) : Prop :=
  r = NotReturned \/ r = Returned resp.

Inductive Course `{Decls} (bs : BuildsService)
    (addOptions : string -> option BuildsListOptions.t -> string * option Error)
    (c : Call) (w : World) : Outcome -> World -> list Event -> Prop :=
| Course_options_failed s opt s' e out :
    options_call c = Some (s, opt) ->
    addOptions s opt = (s', Some e) ->
    is_nil_result (result out) = true ->
    no_response (raw out) ->
    err out = Some e ->
    Course bs addOptions c w out w []
| Course_request_failed method urlStr body req e out :
    NewRequest (client bs) method urlStr body = (req, Some e) ->
    is_nil_result (result out) = true ->
    no_response (raw out) ->
    err out = Some e ->
    Course bs addOptions c w out w [EvNewRequest method urlStr body]
| Course_transport_failed method urlStr body req resp e v w' out :
    NewRequest (client bs) method urlStr body = (req, None) ->
    Do (client bs) (dest_of c) req (fresh (dest_of c)) w = ((resp, Some e, v), w') ->
    is_nil_result (result out) = true ->
    response_or_none resp (raw out) ->
    err out = Some e ->
    Course bs addOptions c w out w' [EvNewRequest method urlStr body; EvDo req]
| Course_done method urlStr body req resp v w' out :
    NewRequest (client bs) method urlStr body = (req, None) ->
    Do (client bs) (dest_of c) req (fresh (dest_of c)) w = ((resp, None, v), w') ->
    result out = decoded (dest_of c) v ->
    response_or_none resp (raw out) ->
    err out = None ->
    Course bs addOptions c w out w' [EvNewRequest method urlStr body; EvDo req].

(** Request construction fails with [e]: a request the call constructs is
    refused by [NewRequest], or its options are refused by [addOptions]. *)
Definition construction_fails `{Decls} (bs : BuildsService)
    (addOptions : string -> option BuildsListOptions.t -> string * option Error)
    (c : Call) (w : World) (e : Error) : Prop :=
  (exists method urlStr body,
      In (EvNewRequest method urlStr body) (trace_of (exec bs addOptions c w))
      /\ snd (NewRequest (client bs) method urlStr body) = Some e)
  \/ (exists s opt,
         options_call c = Some (s, opt) /\ snd (addOptions s opt) = Some e).

(** ** More to read off a call *)

(** The operations that hand back the raw response. *)
Definition returns_response `{Decls} (c : Call) : bool :=
  match c with
  | CallCancel _ _ _ | CallRebuild _ _ _ => false
  | CallCreate _ _ _ | CallGet _ _ _
  | CallList _ | CallListByOrg _ _ | CallListByPipeline _ _ _ => true
  end.

(** The nil of the result type of a call. *)
Definition nil_result `{Decls} (c : Call) : Result :=
  if returns_build c then RBuild None else RBuilds None.

(** What the caller gets once [Do] has returned [resp], [e] and the
    destination [v]. *)
Definition outcome_after_Do `{Decls} (c : Call) (resp : option Response)
    (e : option Error) (v : dest_type (dest_of c)) : Outcome :=
  {| result := match e with
               | Some _ => nil_result c
               | None => decoded (dest_of c) v
               end;
     raw := if returns_response c then Returned resp else NotReturned;
     err := e |}.

(** Calls made one after the other, each in the world the one before left. *)
Fixpoint exec_all `{Decls} (bs : BuildsService)
    (addOptions : string -> option BuildsListOptions.t -> string * option Error)
    (cs : list Call) : M (list Outcome) :=
  match cs with
  | [] => mret []
  | c :: cs' =>
      o ← exec bs addOptions c;
      os ← exec_all bs addOptions cs';
      mret (o :: os)
  end.

(** The value under a key of an object: that of the first member of the
    name. *)
Fixpoint member (k : string) (members : list (string * json)) : option json :=
  match members with
  | [] => None
  | (k', v) :: members' => if String.eqb k k' then Some v else member k members'
  end.

(** The members of the object an [Author] is encoded as. *)
Definition author_members (a : Author.t) : list (string * json) :=
  match marshal (reflect_Author a) with
  | JObj members => members
  | _ => []
  end.

(** A second test double: a service that answers every request with 204 No
    Content, so that [Do] decodes nothing and leaves the destination as it
    was. *)
Section Quiet.
#[local] Existing Instance demo_decls.

Definition quiet_Do (d : dest) (req : Request) (v : dest_type d) (w : World)
  : (option Response * option Error * dest_type d) * World :=
  ((Some 204%Z, None, v), (fst w, S (snd w))).

Definition quiet_client : Client := {| NewRequest := demo_NewRequest; Do := quiet_Do |}.

Definition quiet_service : BuildsService := {| client := quiet_client |}.

End Quiet.

(** * Theorems *)

Section Properties.
Context `{Decls}.

(** ** Paths *)

Lemma cancel_path (org pipeline build : string) :
  Sprintf "v2/organizations/%s/pipelines/%s/builds/%s/cancel" [org; pipeline; build]
  = "v2/organizations/" +:+ org +:+ "/pipelines/" +:+ pipeline
    +:+ "/builds/" +:+ build +:+ "/cancel".
Proof. reflexivity. Qed.

Lemma rebuild_path (org pipeline build : string) :
  Sprintf "v2/organizations/%s/pipelines/%s/builds/%s/rebuild" [org; pipeline; build]
  = "v2/organizations/" +:+ org +:+ "/pipelines/" +:+ pipeline
    +:+ "/builds/" +:+ build +:+ "/rebuild".
Proof. reflexivity. Qed.

Lemma append_empty_r (s : string) : s +:+ "" = s.
Proof.
  induction s as [|c s IH]; [done|].
  change (String c (s +:+ "") = String c s). by rewrite IH.
Qed.

Lemma get_path (org pipeline id : string) :
  Sprintf "v2/organizations/%s/pipelines/%s/builds/%s" [org; pipeline; id]
  = "v2/organizations/" +:+ org +:+ "/pipelines/" +:+ pipeline +:+ "/builds/" +:+ id.
Proof.
  rewrite <- (append_empty_r id) at 2. reflexivity.
Qed.

Lemma create_path (org pipeline : string) :
  Sprintf "v2/organizations/%s/pipelines/%s/builds" [org; pipeline]
  = "v2/organizations/" +:+ org +:+ "/pipelines/" +:+ pipeline +:+ "/builds".
Proof. reflexivity. Qed.

Lemma org_builds_path (org : string) :
  Sprintf "v2/organizations/%s/builds" [org]
  = "v2/organizations/" +:+ org +:+ "/builds".
Proof. reflexivity. Qed.

Lemma builds_path : Sprintf "v2/builds" [] = "v2/builds".
Proof. reflexivity. Qed.

(** ** How a call runs *)

Ltac unfold_ops :=
  unfold exec, Cancel, Rebuild, Create, Get, List, ListByOrg, ListByPipeline, list_from;
  unfold mbind, M_bind, mret, M_ret, call_NewRequest, call_Do.

Ltac course rule :=
  eapply rule; cbn; unfold no_response, response_or_none; eauto.

Ltac split_addOptions addOptions :=
  try match goal with
      | |- context [addOptions ?s ?o] => destruct (addOptions s o) as [? [?|]] eqn:?
      end.

Ltac split_NewRequest :=
  match goal with
  | |- context [NewRequest ?c ?m ?u ?b] =>
      destruct (NewRequest c m u b) as [? [?|]] eqn:?
  end.

Ltac split_Do :=
  match goal with
  | |- context [Do ?c ?d ?r ?v ?w] =>
      destruct (Do c d r v w) as [[[? [?|]] ?] ?] eqn:?
  end.

Section Courses.
Variable bs : BuildsService.
Variable addOptions : string -> option BuildsListOptions.t -> string * option Error.

Lemma List_is_list_from (opt : option BuildsListOptions.t) :
  List bs addOptions opt = list_from bs addOptions "v2/builds" opt.
Proof. reflexivity. Qed.

Lemma ListByOrg_is_list_from (org : string) (opt : option BuildsListOptions.t) :
  ListByOrg bs addOptions org opt
  = list_from bs addOptions ("v2/organizations/" +:+ org +:+ "/builds") opt.
Proof. reflexivity. Qed.

Lemma ListByPipeline_is_list_from (org pipeline : string) (opt : option BuildsListOptions.t) :
  ListByPipeline bs addOptions org pipeline opt
  = list_from bs addOptions
      ("v2/organizations/" +:+ org +:+ "/pipelines/" +:+ pipeline +:+ "/builds") opt.
Proof. reflexivity. Qed.

(** Every call takes one of the four courses. *)
Lemma exec_course (c : Call) (w : World) :
  let r := exec bs addOptions c w in
  Course bs addOptions c w (value_of r) (world_of r) (trace_of r).
Proof.
  destruct c; cbn zeta; unfold_ops;
    split_addOptions addOptions;
    try solve [course Course_options_failed];
    split_NewRequest;
    try solve [course Course_request_failed];
    split_Do;
    solve [course Course_transport_failed | course Course_done].
Qed.

End Courses.

(** ** Cancel and Rebuild *)

(** C3.  For every organisation, pipeline and build id, Cancel constructs
    exactly one request, a PUT to
    [v2/organizations/{org}/pipelines/{pipeline}/builds/{id}/cancel], and
    Rebuild exactly one, a PUT to the same path ending in [/rebuild]; both
    pass the nil body, for which nothing is encoded; and the request that
    is executed, if construction succeeds, is the one constructed. *)
Theorem Cancel_Rebuild_put_without_body
    (bs : BuildsService) (org pipeline build : string) (w : World) :
  let cancel := "v2/organizations/" +:+ org +:+ "/pipelines/" +:+ pipeline
                +:+ "/builds/" +:+ build +:+ "/cancel" in
  let rebuild := "v2/organizations/" +:+ org +:+ "/pipelines/" +:+ pipeline
                 +:+ "/builds/" +:+ build +:+ "/rebuild" in
  let asked (u : string) :=
    EvNewRequest "PUT" u BodyNil ::
    match NewRequest (client bs) "PUT" u BodyNil with
    | (_, Some _) => []
    | (req, None) => [EvDo req]
    end in
  trace_of (Cancel bs org pipeline build w) = asked cancel
  /\ trace_of (Rebuild bs org pipeline build w) = asked rebuild
  /\ encode_body BodyNil = None.
Proof.
  intros cancel rebuild asked. subst asked.
  split; [|split; [|done]].
  - unfold_ops. rewrite cancel_path. fold cancel.
    destruct (NewRequest (client bs) "PUT" cancel BodyNil) as [req [e|]]; [done|].
    by destruct (Do (client bs) dBuild req Build.zero w) as [[[resp [e|]] b] w'].
  - unfold_ops. rewrite rebuild_path. fold rebuild.
    destruct (NewRequest (client bs) "PUT" rebuild BodyNil) as [req [e|]]; [done|].
    by destruct (Do (client bs) dBuild req Build.zero w) as [[[resp [e|]] b] w'].
Qed.

(** What Cancel and Rebuild return is decided by the error and the decoded
    build alone. *)
Lemma Cancel_value (bs : BuildsService) (org pipeline build : string) (w : World) :
  value_of (Cancel bs org pipeline build w)
  = let u := "v2/organizations/" +:+ org +:+ "/pipelines/" +:+ pipeline
             +:+ "/builds/" +:+ build +:+ "/cancel" in
    match NewRequest (client bs) "PUT" u BodyNil with
    | (_, Some e) => (None, Some e)
    | (req, None) =>
        match Do (client bs) dBuild req Build.zero w with
        | ((_, Some e, _), _) => (None, Some e)
        | ((_, None, b), _) => (Some b, None)
        end
    end.
Proof.
  cbn zeta. unfold_ops. rewrite cancel_path.
  split_NewRequest; [done|]. by split_Do.
Qed.

Lemma Rebuild_value (bs : BuildsService) (org pipeline build : string) (w : World) :
  value_of (Rebuild bs org pipeline build w)
  = let u := "v2/organizations/" +:+ org +:+ "/pipelines/" +:+ pipeline
             +:+ "/builds/" +:+ build +:+ "/rebuild" in
    match NewRequest (client bs) "PUT" u BodyNil with
    | (_, Some e) => (None, Some e)
    | (req, None) =>
        match Do (client bs) dBuild req Build.zero w with
        | ((_, Some e, _), _) => (None, Some e)
        | ((_, None, b), _) => (Some b, None)
        end
    end.
Proof.
  cbn zeta. unfold_ops. rewrite rebuild_path.
  split_NewRequest; [done|]. by split_Do.
Qed.

Lemma with_response_Do (f : option Response -> option Response) (c : Client)
    (d : dest) (req : Request) (v : dest_type d) (w : World) :
  Do (with_response f c) d req v w
  = let '(resp, e, v', w') := Do c d req v w in ((f resp, e, v'), w').
Proof. reflexivity. Qed.

(** C10.  Cancel and Rebuild hand back a pair of a build pointer and an
    error, with no place for the raw response: when the transport was
    executed and failed, the pair is (nil, that error), and whatever raw
    response [Do] produced changes nothing in what the caller gets. *)
Theorem Cancel_Rebuild_drop_response
    (op : BuildsService -> string -> string -> string -> M (option Build.t * option Error))
    (bs : BuildsService) (org pipeline build : string) (w : World) (e : Error) :
  op = Cancel \/ op = Rebuild ->
  executions (trace_of (op bs org pipeline build w)) = 1%nat ->
  snd (value_of (op bs org pipeline build w)) = Some e ->
  value_of (op bs org pipeline build w) = (None, Some e)
  /\ forall f : option Response -> option Response,
       value_of (op {| client := with_response f (client bs) |} org pipeline build w)
       = value_of (op bs org pipeline build w).
Proof.
  intros Hop _ He. split.
  - revert He. destruct Hop as [-> | ->];
      [rewrite Cancel_value | rewrite Rebuild_value]; cbn zeta;
      split_NewRequest; cbn; try congruence;
      split_Do; cbn; congruence.
  - intros f. destruct Hop as [-> | ->];
      rewrite ?Cancel_value, ?Rebuild_value; cbn zeta; cbn [client NewRequest with_response];
      split_NewRequest; try done;
      rewrite with_response_Do; by split_Do.
Qed.

(** ** Get *)

(** C5.  When the request was constructed and its execution fails, Get
    returns the error of the transport with a nil build, and passes on the
    raw response the transport handed back. *)
Theorem Get_transport_error
    (bs : BuildsService) (org pipeline id : string) (w w' : World)
    (req : Request) (resp : option Response) (e : Error) (b : Build.t) :
  NewRequest (client bs) "GET"
    ("v2/organizations/" +:+ org +:+ "/pipelines/" +:+ pipeline +:+ "/builds/" +:+ id)
    BodyNil = (req, None) ->
  Do (client bs) dBuild req Build.zero w = ((resp, Some e, b), w') ->
  value_of (Get bs org pipeline id w) = (None, resp, Some e).
Proof.
  intros Hreq Hdo. unfold_ops. rewrite get_path, Hreq, Hdo. reflexivity.
Qed.

(** ** All seven operations *)

Section Every_call.
Variable bs : BuildsService.
Variable addOptions : string -> option BuildsListOptions.t -> string * option Error.

(** When [addOptions] refuses the options, nothing is asked of the
    transport. *)
Lemma options_error_asks_nothing (c : Call) (w : World)
    (s : string) (opt : option BuildsListOptions.t) (e : Error) :
  options_call c = Some (s, opt) ->
  snd (addOptions s opt) = Some e ->
  trace_of (exec bs addOptions c w) = [].
Proof.
  destruct c; cbn; try discriminate; intros [= <- <-]; unfold_ops;
    destruct (addOptions _ _) as [? [?|]]; cbn; done.
Qed.

(** C6.  For every operation: when constructing the request fails, in
    [NewRequest] or in [addOptions], the operation returns that error with
    a nil result and no raw response, the transport is not executed, and
    the world is as it was. *)
Theorem construction_error_stops_the_call (c : Call) (w : World) (e : Error) :
  construction_fails bs addOptions c w e ->
  let r := exec bs addOptions c w in
  err (value_of r) = Some e
  /\ is_nil_result (result (value_of r)) = true
  /\ no_response (raw (value_of r))
  /\ executions (trace_of r) = 0%nat
  /\ world_of r = w.
Proof.
  intros Hfail. cbn zeta.
  pose proof (exec_course bs addOptions c w) as Hc. cbn zeta in Hc.
  remember (value_of (exec bs addOptions c w)) as out eqn:Hout.
  remember (world_of (exec bs addOptions c w)) as w1 eqn:Hw.
  remember (trace_of (exec bs addOptions c w)) as t eqn:Ht.
  unfold construction_fails in Hfail. rewrite <- Ht in Hfail.
  destruct Hc as [s opt s' e' out Hcall Hopt Hnil Hraw Herr
                 |m u b req e' out Hreq Hnil Hraw Herr
                 |m u b req resp e' v w' out Hreq Hdo Hnil Hraw Herr
                 |m u b req resp v w' out Hreq Hdo Hres Hraw Herr];
    (destruct Hfail as [(m0 & u0 & b0 & Hin & Hsnd) | (s0 & opt0 & Hcall0 & Hsnd)];
     [|try (rewrite (options_error_asks_nothing c w _ _ _ Hcall0 Hsnd) in Ht;
            discriminate Ht)]).
  - (* addOptions failed, nothing was constructed *)
    destruct Hin.
  - (* addOptions failed with [e] *)
    rewrite Hcall in Hcall0. injection Hcall0 as <- <-.
    rewrite Hopt in Hsnd. cbn in Hsnd. injection Hsnd as ->. done.
  - (* NewRequest failed with [e] *)
    destruct Hin as [Heq | []]. injection Heq as <- <- <-.
    rewrite Hreq in Hsnd. cbn in Hsnd. injection Hsnd as ->. done.
  - (* Do failed: the one request constructed was accepted *)
    exfalso. destruct Hin as [Heq | [Heq | []]]; [|discriminate].
    injection Heq as <- <- <-. rewrite Hreq in Hsnd. discriminate.
  - (* Do succeeded: likewise *)
    exfalso. destruct Hin as [Heq | [Heq | []]]; [|discriminate].
    injection Heq as <- <- <-. rewrite Hreq in Hsnd. discriminate.
Qed.

(** C7.  Every operation executes the transport at most once in a call:
    there is no second attempt after a failure. *)
Theorem at_most_one_round_trip (c : Call) (w : World) :
  (executions (trace_of (exec bs addOptions c w)) <= 1)%nat.
Proof.
  pose proof (exec_course bs addOptions c w) as Hc. cbn zeta in Hc.
  remember (value_of (exec bs addOptions c w)) as out.
  remember (world_of (exec bs addOptions c w)) as w1.
  remember (trace_of (exec bs addOptions c w)) as t.
  destruct Hc; cbn; lia.
Qed.

(** The requests a call constructs are fixed by its arguments. *)
Lemma constructed_from_arguments (c : Call) (w : World) :
  constructed (trace_of (exec bs addOptions c w))
  = match options_call c with
    | Some (s, opt) =>
        match addOptions s opt with
        | (_, Some _) => []
        | (u, None) => [EvNewRequest "GET" u BodyNil]
        end
    | None =>
        match c with
        | CallCancel org pipeline build =>
            [EvNewRequest "PUT"
               (Sprintf "v2/organizations/%s/pipelines/%s/builds/%s/cancel"
                  [org; pipeline; build]) BodyNil]
        | CallRebuild org pipeline build =>
            [EvNewRequest "PUT"
               (Sprintf "v2/organizations/%s/pipelines/%s/builds/%s/rebuild"
                  [org; pipeline; build]) BodyNil]
        | CallCreate org pipeline b =>
            [EvNewRequest "POST"
               (Sprintf "v2/organizations/%s/pipelines/%s/builds" [org; pipeline])
               (BodyCreateBuild b)]
        | CallGet org pipeline id =>
            [EvNewRequest "GET"
               (Sprintf "v2/organizations/%s/pipelines/%s/builds/%s"
                  [org; pipeline; id]) BodyNil]
        | _ => []
        end
    end.
Proof.
  destruct c; cbn [options_call]; unfold_ops;
    rewrite ?builds_path, ?org_builds_path, ?create_path;
    split_addOptions addOptions; try reflexivity;
    split_NewRequest; try reflexivity; by split_Do.
Qed.

(** C8.  Request construction is a function of the arguments alone: the
    same call made in two states of the world, or twice in a row,
    constructs the same requests, with the same path and, for Create, the
    same body. *)
Theorem request_construction_is_stateless (c : Call) (w1 w2 : World) :
  constructed (trace_of (exec bs addOptions c w1))
  = constructed (trace_of (exec bs addOptions c w2))
  /\ constructed
       (trace_of ((exec bs addOptions c ≫= fun _ => exec bs addOptions c) w1))
     = constructed (trace_of (exec bs addOptions c w1))
       ++ constructed (trace_of (exec bs addOptions c w1)).
Proof.
  split.
  - by rewrite !constructed_from_arguments.
  - unfold mbind at 1, M_bind at 1.
    destruct (exec bs addOptions c w1) as [[out w'] t] eqn:Hfirst.
    pose proof (constructed_from_arguments c w') as Hsecond.
    destruct (exec bs addOptions c w') as [[out' w''] t'].
    pose proof (constructed_from_arguments c w1) as Hfirst'.
    rewrite Hfirst in Hfirst'.
    unfold trace_of in *. cbn [snd] in *.
    unfold constructed in *. rewrite List.filter_app.
    by rewrite Hfirst', Hsecond.
Qed.

(** C9.  Whenever Cancel, Create, Get or Rebuild returns a nil error, the
    build pointer it returns is not nil. *)
Theorem nil_error_gives_a_build (c : Call) (w : World) :
  returns_build c = true ->
  err (value_of (exec bs addOptions c w)) = None ->
  exists b : Build.t, result (value_of (exec bs addOptions c w)) = RBuild (Some b).
Proof.
  intros Hbuild Hnil.
  pose proof (exec_course bs addOptions c w) as Hc. cbn zeta in Hc.
  remember (value_of (exec bs addOptions c w)) as out.
  remember (world_of (exec bs addOptions c w)) as w1.
  remember (trace_of (exec bs addOptions c w)) as t.
  destruct Hc as [s opt s' e' out Hcall Hopt Hnil' Hraw Herr
                 |m u b req e' out Hreq Hnil' Hraw Herr
                 |m u b req resp e' v w' out Hreq Hdo Hnil' Hraw Herr
                 |m u b req resp v w' out Hreq Hdo Hres Hraw Herr];
    try congruence.
  revert v Hdo Hres. unfold dest_of. rewrite Hbuild. cbn.
  intros v _ Hres. by exists v.
Qed.

End Every_call.

(** ** The body of Create *)

(** A string of ASCII bytes is written as it is. *)
Lemma ascii_is_clean (s : string) :
  Forall (fun c => (N_of_ascii c < 0x80)%N) (list_ascii_of_string s) ->
  utf8_clean s.
Proof.
  unfold utf8_clean. induction s as [|c s IH]; [done|].
  cbn [list_ascii_of_string]. intros Hs. inversion Hs as [|? ? Hc Hrest]. subst.
  assert (rune_width (String c s) = Some 1%nat) as Hw.
  { unfold rune_width, first. apply N.ltb_lt in Hc. by rewrite Hc. }
  cbn [coerce_utf8]. rewrite Hw. by rewrite (IH Hrest).
Qed.

(** When a field counts as empty. *)
Lemma isEmptyValue_string (s : string) :
  isEmptyValue (VString s) = bool_decide (s = "").
Proof. destruct s; cbn; by case_bool_decide. Qed.

Lemma isEmptyValue_int (n : Z) : isEmptyValue (VInt n) = bool_decide (n = 0).
Proof. cbn. destruct (Z.eqb_spec n 0); by case_bool_decide. Qed.

Lemma isEmptyValue_map (m : gmap string string) :
  isEmptyValue (reflect_map m) = bool_decide (m = ∅).
Proof.
  unfold reflect_map. cbn. rewrite List.length_map.
  destruct (map_to_list m) as [|kv l] eqn:Hl; cbn; case_bool_decide as Hm; try done.
  - by apply map_to_list_empty_iff in Hl.
  - by rewrite Hm, map_to_list_empty in Hl.
Qed.

Lemma isEmptyValue_struct (fields : list (field * value)) :
  isEmptyValue (VStruct fields) = false.
Proof. reflexivity. Qed.

Lemma keys_app {A : Type} (l1 l2 : list (string * A)) :
  keys (l1 ++ l2) = keys l1 ++ keys l2.
Proof. apply map_app. Qed.

Lemma keys_optional (key : string) (v : value) :
  keys (optional key v) = if isEmptyValue v then [] else [key].
Proof. unfold optional. by destruct (isEmptyValue v). Qed.

(** The members of an encoded [CreateBuild], in the order of the
    declaration. *)
Lemma body_members_eq (b : CreateBuild.t) :
  body_members b
  = [("commit", JStr (coerce_utf8 (CreateBuild.Commit b)));
     ("branch", JStr (coerce_utf8 (CreateBuild.Branch b)));
     ("message", JStr (coerce_utf8 (CreateBuild.Message b)))]
    ++ optional "author" (reflect_Author (CreateBuild.Author b))
    ++ optional "env" (reflect_map (CreateBuild.Env b))
    ++ optional "meta_data" (reflect_map (CreateBuild.MetaData b))
    ++ optional "ignore_pipeline_branch_filters"
         (VBool (CreateBuild.IgnorePipelineBranchFilters b))
    ++ optional "pull_request_base_branch"
         (VString (CreateBuild.PullRequestBaseBranch b))
    ++ optional "pull_request_id" (VInt (CreateBuild.PullRequestID b))
    ++ optional "pull_request_repository"
         (VString (CreateBuild.PullRequestRepository b)).
Proof.
  unfold body_members, reflect_CreateBuild, optional. cbn.
  rewrite !app_nil_r. reflexivity.
Qed.

(** The keys of an encoded [CreateBuild]: the three required ones, then
    [author] whatever the author is, then each other optional key whose
    field is not empty. *)
Lemma body_keys (b : CreateBuild.t) :
  keys (body_members b)
  = ["commit"; "branch"; "message"; "author"]
    ++ (if bool_decide (CreateBuild.Env b = ∅) then [] else ["env"])
    ++ (if bool_decide (CreateBuild.MetaData b = ∅) then [] else ["meta_data"])
    ++ (if negb (CreateBuild.IgnorePipelineBranchFilters b)
        then [] else ["ignore_pipeline_branch_filters"])
    ++ (if bool_decide (CreateBuild.PullRequestBaseBranch b = "")
        then [] else ["pull_request_base_branch"])
    ++ (if bool_decide (CreateBuild.PullRequestID b = 0)
        then [] else ["pull_request_id"])
    ++ (if bool_decide (CreateBuild.PullRequestRepository b = "")
        then [] else ["pull_request_repository"]).
Proof.
  rewrite body_members_eq, !keys_app, !keys_optional.
  rewrite !isEmptyValue_map, !isEmptyValue_string, isEmptyValue_int.
  reflexivity.
Qed.

(** C1.  What Create does with
    [CreateBuild{Commit: "abc123", Branch: "main", Message: "deploy"}]: it
    hands the value to [NewRequest] for a POST to
    [v2/organizations/acme/pipelines/widget-ci/builds], and the body encoded
    from it has the three required keys and, besides them, the key [author]
    with an empty object, although the author is empty; [omitempty] leaves
    out no struct-valued field, so [author] is a key of the body encoded
    from any [CreateBuild]. *)
Theorem Create_body_keeps_empty_author (bs : BuildsService) (w : World) :
  head (trace_of (Create bs "acme" "widget-ci" (Some deploy) w))
  = Some (EvNewRequest "POST" "v2/organizations/acme/pipelines/widget-ci/builds"
            (BodyCreateBuild (Some deploy)))
  /\ encode_body (BodyCreateBuild (Some deploy))
     = Some (JObj [("commit", JStr "abc123"); ("branch", JStr "main");
                   ("message", JStr "deploy"); ("author", JObj [])])
  /\ encode_body (BodyCreateBuild (Some deploy))
     <> Some (JObj [("commit", JStr "abc123"); ("branch", JStr "main");
                    ("message", JStr "deploy")])
  /\ forall b : CreateBuild.t,
       encode_body (BodyCreateBuild (Some b)) = Some (JObj (body_members b))
       /\ In "author" (keys (body_members b)).
Proof.
  split; [|split; [|split]].
  - unfold_ops. split_NewRequest; [done|]. by split_Do.
  - reflexivity.
  - discriminate.
  - intros b. split; [reflexivity|]. rewrite body_keys. cbn. tauto.
Qed.

(** ** Presence markers *)

Lemma marked_spec (s : list field) (f : field) :
  marked s = true -> In f s -> omitempty f = true -> nullable (ftype f) = true.
Proof.
  unfold marked. rewrite forallb_forall. intros Hs Hf Ho.
  specialize (Hs f Hf). by rewrite Ho in Hs.
Qed.

(** A field of a type whose zero value is nil tells an absent key from any
    value that was sent. *)
Lemma nullable_tells_absent (t : gotype) (j : json) :
  nullable t = true -> j <> JNull ->
  decode_field t None <> decode_field t (Some j).
Proof.
  intros Ht Hj. unfold decode_field, zero_held. rewrite Ht.
  destruct j; congruence.
Qed.

(** A field held directly is the same after an absent key and after its
    zero value. *)
Lemma direct_forgets_absent (t : gotype) :
  nullable t = false ->
  decode_field t None = decode_field t (Some (zero_wire t)).
Proof.
  intros Ht. unfold decode_field, zero_held. rewrite Ht.
  destruct t; try discriminate; reflexivity.
Qed.

(** Creator declares no optional field, and in CreateBuild the optional
    fields other than the two maps are held directly. *)
Lemma Creator_has_no_optional_field :
  List.filter omitempty Creator_decl = [].
Proof. reflexivity. Qed.

Lemma CreateBuild_unmarked_fields :
  map fname
    (List.filter (fun f => omitempty f && negb (nullable (ftype f))) CreateBuild_decl)
  = ["Author"; "IgnorePipelineBranchFilters"; "PullRequestBaseBranch";
     "PullRequestID"; "PullRequestRepository"].
Proof. reflexivity. Qed.

(** C2, as amended.  Every optional field of the types the client decodes
    from a response, Build, Creator and PullRequest, has a type whose zero
    value is nil (a pointer, map, slice or interface) rather than relying
    on a zero value, so that after decoding the field tells a key that was
    absent from a key that was present with an empty or zero value, or
    with any other value except [null]; a key present with [null] leaves
    the field as an absent key does. *)
Theorem response_optional_fields_are_nullable (s : list field) (f : field) :
  In s [Build_decl; Creator_decl; PullRequest_decl] ->
  In f s ->
  omitempty f = true ->
  nullable (ftype f) = true
  /\ (forall j : json, j <> JNull ->
        decode_field (ftype f) None <> decode_field (ftype f) (Some j))
  /\ decode_field (ftype f) (Some JNull) = decode_field (ftype f) None.
Proof.
  intros Hs Hf Ho.
  assert (marked s = true) as Hm.
  { destruct Hs as [<- | [<- | [<- | []]]]; reflexivity. }
  pose proof (marked_spec s f Hm Hf Ho) as Hn.
  split; [done|]. split; [|reflexivity].
  intros j Hj. by apply nullable_tells_absent.
Qed.

(** ** The query of the List operations *)

Lemma In_insert_by_key {A : Type} (x y : string * A) (l : list (string * A)) :
  In x (insert_by_key y l) <-> x = y \/ In x l.
Proof.
  induction l as [|z l IH]; cbn.
  - intuition congruence.
  - destruct (String.leb (fst y) (fst z)); cbn; [intuition congruence|].
    rewrite IH. intuition congruence.
Qed.

(** Sorting loses and adds no parameter. *)
Lemma In_sort_by_key {A : Type} (x : string * A) (l : list (string * A)) :
  In x (sort_by_key l) <-> In x l.
Proof.
  induction l as [|y l IH]; cbn; [tauto|].
  rewrite In_insert_by_key, IH. intuition congruence.
Qed.

Lemma q_field_string (f : field) (s k v : string) :
  omitempty f = true ->
  In (k, v) (q_field (f, QString s)) <-> k = ftag f /\ v = s /\ v <> "".
Proof.
  intros Ho. unfold q_field. rewrite Ho. cbn.
  destruct s as [|c s]; cbn.
  - split; [intros [] | intros (_ & -> & Hne); done].
  - split; [intros [[= <- <-] | []]; done | intros (-> & -> & _); by left].
Qed.

Lemma q_field_time (f : field) (t : Time) (k v : string) :
  omitempty f = true ->
  In (k, v) (q_field (f, QTime t))
  <-> k = ftag f /\ v = FormatRFC3339 t /\ IsZero t = false.
Proof.
  intros Ho. unfold q_field. rewrite Ho. cbn.
  destruct (IsZero t); cbn.
  - split; [intros [] | intros (_ & _ & [=])].
  - split; [intros [[= <- <-] | []]; done | intros (-> & -> & _); by left].
Qed.

Lemma q_field_strings (f : field) (l : list string) (k v : string) :
  In (k, v) (q_field (f, QStrings l)) <-> k = q_name f /\ In v l.
Proof.
  unfold q_field.
  destruct (omitempty f && q_isEmptyValue (QStrings l)) eqn:Hempty.
  - apply andb_true_iff in Hempty as [_ Hl]. destruct l; [|discriminate].
    cbn. tauto.
  - rewrite in_map_iff. split.
    + intros (x & [= <- <-] & Hx). done.
    + intros (-> & Hv). by exists v.
Qed.

(** The parameters the filter fields contribute: each populated field under
    its declared name, [state] once per element under [state[]], and
    nothing for a field left at its zero value. *)
Lemma filter_values_spec (o : BuildsListOptions.t) (k v : string) :
  In (k, v) (filter_values o)
  <-> (k = "creator" /\ v = BuildsListOptions.Creator o /\ v <> "")
      \/ (k = "created_from"
          /\ v = FormatRFC3339 (BuildsListOptions.CreatedFrom o)
          /\ IsZero (BuildsListOptions.CreatedFrom o) = false)
      \/ (k = "created_to"
          /\ v = FormatRFC3339 (BuildsListOptions.CreatedTo o)
          /\ IsZero (BuildsListOptions.CreatedTo o) = false)
      \/ (k = "finished_from"
          /\ v = FormatRFC3339 (BuildsListOptions.FinishedFrom o)
          /\ IsZero (BuildsListOptions.FinishedFrom o) = false)
      \/ (k = "state[]" /\ In v (BuildsListOptions.State o))
      \/ (k = "branch" /\ v = BuildsListOptions.Branch o /\ v <> "")
      \/ (k = "commit" /\ v = BuildsListOptions.Commit o /\ v <> "").
Proof.
  unfold filter_values, reflect_BuildsListOptions.
  cbn [BuildsListOptions_decl combine flat_map].
  rewrite !in_app_iff.
  rewrite !q_field_string, !q_field_time, q_field_strings by reflexivity.
  cbn. tauto.
Qed.

Lemma list_from_asks (bs : BuildsService) (s : string)
    (opt : option BuildsListOptions.t) (w : World) :
  head (trace_of (list_from bs addOptions_model s opt w))
  = Some (EvNewRequest "GET"
            match opt with
            | None => s
            | Some o => with_query s (Encode (Values o))
            end BodyNil).
Proof.
  unfold_ops. destruct opt as [o|]; cbn [addOptions_model];
    split_NewRequest; try done; by split_Do.
Qed.

(** C4.  With [addOptions] as the specification describes it: a List
    operation without options requests its bare path; with options it
    requests the path followed by the query encoded from them, whose
    parameters are: each populated filter field under its declared name,
    [state] once per element under [state[]], no zero-valued filter field,
    and what the pagination options add; a query without parameters adds
    nothing to the path; and
    [List(&BuildsListOptions{Branch: "main"})] requests GET
    [v2/builds?branch=main]. *)
Theorem list_operations_encode_options (bs : BuildsService) (w : World) :
  IsZero Time_zero = true ->
  ListOptions_query ListOptions_zero = [] ->
  let get (u : string) := Some (EvNewRequest "GET" u BodyNil) in
  let asked (m : M (slice Build.t * option Response * option Error)) :=
    head (trace_of (m w)) in
  (forall org pipeline : string,
      asked (List bs addOptions_model None) = get "v2/builds"
      /\ asked (ListByOrg bs addOptions_model org None)
         = get ("v2/organizations/" +:+ org +:+ "/builds")
      /\ asked (ListByPipeline bs addOptions_model org pipeline None)
         = get ("v2/organizations/" +:+ org +:+ "/pipelines/" +:+ pipeline
                +:+ "/builds"))
  /\ (forall (org pipeline : string) (o : BuildsListOptions.t),
         asked (List bs addOptions_model (Some o))
         = get (with_query "v2/builds" (Encode (Values o)))
         /\ asked (ListByOrg bs addOptions_model org (Some o))
            = get (with_query ("v2/organizations/" +:+ org +:+ "/builds")
                     (Encode (Values o)))
         /\ asked (ListByPipeline bs addOptions_model org pipeline (Some o))
            = get (with_query
                     ("v2/organizations/" +:+ org +:+ "/pipelines/" +:+ pipeline
                      +:+ "/builds")
                     (Encode (Values o))))
  /\ (forall (o : BuildsListOptions.t) (k v : string),
         In (k, v) (sort_by_key (Values o))
         <-> (k = "creator" /\ v = BuildsListOptions.Creator o /\ v <> "")
             \/ (k = "created_from"
                 /\ v = FormatRFC3339 (BuildsListOptions.CreatedFrom o)
                 /\ IsZero (BuildsListOptions.CreatedFrom o) = false)
             \/ (k = "created_to"
                 /\ v = FormatRFC3339 (BuildsListOptions.CreatedTo o)
                 /\ IsZero (BuildsListOptions.CreatedTo o) = false)
             \/ (k = "finished_from"
                 /\ v = FormatRFC3339 (BuildsListOptions.FinishedFrom o)
                 /\ IsZero (BuildsListOptions.FinishedFrom o) = false)
             \/ (k = "state[]" /\ In v (BuildsListOptions.State o))
             \/ (k = "branch" /\ v = BuildsListOptions.Branch o /\ v <> "")
             \/ (k = "commit" /\ v = BuildsListOptions.Commit o /\ v <> "")
             \/ In (k, v) (ListOptions_query (BuildsListOptions.ListOptions_ o)))
  /\ (forall s : string, with_query s (Encode []) = s)
  /\ asked (List bs addOptions_model
              (Some (BuildsListOptions.mk "" Time_zero Time_zero Time_zero []
                       "main" "" ListOptions_zero)))
     = get "v2/builds?branch=main".
Proof.
  intros Hzero Hpage get asked. subst get asked. cbn beta.
  split; [|split; [|split; [|split]]].
  - intros org pipeline.
    rewrite List_is_list_from, ListByOrg_is_list_from, ListByPipeline_is_list_from.
    by rewrite !list_from_asks.
  - intros org pipeline o.
    rewrite List_is_list_from, ListByOrg_is_list_from, ListByPipeline_is_list_from.
    by rewrite !list_from_asks.
  - intros o k v. unfold Values.
    rewrite In_sort_by_key, in_app_iff, filter_values_spec. tauto.
  - reflexivity.
  - rewrite List_is_list_from, list_from_asks. do 2 f_equal.
    unfold Values, filter_values, reflect_BuildsListOptions, q_field.
    cbn. rewrite Hzero, Hpage. reflexivity.
Qed.

(** * More of builds.go *)

(** ** What reaches the transport and what comes back *)

Section Round_trip.
Variable bs : BuildsService.
Variable addOptions : string -> option BuildsListOptions.t -> string * option Error.

(** Once the request is constructed, the call is the one execution of it. *)
Lemma exec_after_Do (c : Call) (w w' : World) (method urlStr : string) (body : Body)
    (req : Request) (resp : option Response) (e : option Error)
    (v : dest_type (dest_of c)) :
  In (EvNewRequest method urlStr body) (trace_of (exec bs addOptions c w)) ->
  NewRequest (client bs) method urlStr body = (req, None) ->
  Do (client bs) (dest_of c) req (fresh (dest_of c)) w = ((resp, e, v), w') ->
  exec bs addOptions c w
  = (outcome_after_Do c resp e v, w', [EvNewRequest method urlStr body; EvDo req]).
Proof.
  destruct c; cbn in v |- *; unfold_ops;
    split_addOptions addOptions; cbn;
    try (intros []; fail);
    match goal with
    | |- context [NewRequest ?cl ?m ?u ?b] =>
        destruct (NewRequest cl m u b) as [req0 [e0|]] eqn:Hnew
    end; cbn;
    try (intros [[= <- <- <-] | []] Hreq; congruence);
    match goal with
    | |- context [Do ?cl ?d ?r ?v0 ?w0] =>
        destruct (Do cl d r v0 w0) as [[[resp1 [e1|]] v1] w1] eqn:Hrun
    end; cbn;
    (intros [[= <- <- <-] | [[=] | []]] Hreq Hdo;
     rewrite Hnew in Hreq; injection Hreq as <-;
     rewrite Hrun in Hdo; by injection Hdo as <- <- <- <-).
Qed.

(** X1.  The request each of the seven operations constructs: Cancel and
    Rebuild a PUT, Create a POST carrying the [*CreateBuild] it was given
    (nil included), Get and the three List operations a GET, each at its
    own path; a List operation hands its bare path and its options to
    [addOptions] and requests whatever path comes back, or constructs
    nothing when [addOptions] fails.  No operation constructs a second
    request. *)
Theorem every_call_constructs_one_request (c : Call) (w : World) :
  let listed (s : string) (opt : option BuildsListOptions.t) :=
    match addOptions s opt with
    | (_, Some _) => []
    | (u, None) => [EvNewRequest "GET" u BodyNil]
    end in
  constructed (trace_of (exec bs addOptions c w))
  = match c with
    | CallCancel org pipeline build =>
        [EvNewRequest "PUT"
           ("v2/organizations/" +:+ org +:+ "/pipelines/" +:+ pipeline
            +:+ "/builds/" +:+ build +:+ "/cancel") BodyNil]
    | CallCreate org pipeline b =>
        [EvNewRequest "POST"
           ("v2/organizations/" +:+ org +:+ "/pipelines/" +:+ pipeline +:+ "/builds")
           (BodyCreateBuild b)]
    | CallGet org pipeline id =>
        [EvNewRequest "GET"
           ("v2/organizations/" +:+ org +:+ "/pipelines/" +:+ pipeline
            +:+ "/builds/" +:+ id) BodyNil]
    | CallList opt => listed "v2/builds" opt
    | CallListByOrg org opt =>
        listed ("v2/organizations/" +:+ org +:+ "/builds") opt
    | CallListByPipeline org pipeline opt =>
        listed ("v2/organizations/" +:+ org +:+ "/pipelines/" +:+ pipeline
                +:+ "/builds") opt
    | CallRebuild org pipeline build =>
        [EvNewRequest "PUT"
           ("v2/organizations/" +:+ org +:+ "/pipelines/" +:+ pipeline
            +:+ "/builds/" +:+ build +:+ "/rebuild") BodyNil]
    end.
Proof.
  cbn zeta. rewrite constructed_from_arguments.
  destruct c; cbn [options_call]; try reflexivity.
  by rewrite get_path.
Qed.

(** X2.  The transport only ever executes a request that [NewRequest]
    returned without an error, and then nothing else happens in the call:
    the trace is that one construction followed by that one execution. *)
Theorem executes_only_what_it_constructed (c : Call) (w : World) (req : Request) :
  In (EvDo req) (trace_of (exec bs addOptions c w)) ->
  exists (method urlStr : string) (body : Body),
    NewRequest (client bs) method urlStr body = (req, None)
    /\ trace_of (exec bs addOptions c w) = [EvNewRequest method urlStr body; EvDo req].
Proof.
  intros Hin.
  pose proof (exec_course bs addOptions c w) as Hc. cbn zeta in Hc.
  remember (value_of (exec bs addOptions c w)) as out.
  remember (world_of (exec bs addOptions c w)) as w1.
  remember (trace_of (exec bs addOptions c w)) as t.
  destruct Hc as [s opt s' e' out Hcall Hopt Hnil Hraw Herr
                 |m u b req' e' out Hreq Hnil Hraw Herr
                 |m u b req' resp e' v w' out Hreq Hdo Hnil Hraw Herr
                 |m u b req' resp v w' out Hreq Hdo Hres Hraw Herr].
  - destruct Hin.
  - destruct Hin as [[=] | []].
  - destruct Hin as [[=] | [[= ->] | []]]. by exists m, u, b.
  - destruct Hin as [[=] | [[= ->] | []]]. by exists m, u, b.
Qed.

(** X3.  When the execution of the constructed request fails, every
    operation returns the error of the transport with a nil result,
    whatever [Do] had written into the destination, and the operations
    that return a raw response (Create, Get and the three List operations)
    return the one [Do] handed back. *)
Theorem transport_error_reaches_the_caller (c : Call) (w w' : World)
    (method urlStr : string) (body : Body) (req : Request)
    (resp : option Response) (e : Error) (v : dest_type (dest_of c)) :
  In (EvNewRequest method urlStr body) (trace_of (exec bs addOptions c w)) ->
  NewRequest (client bs) method urlStr body = (req, None) ->
  Do (client bs) (dest_of c) req (fresh (dest_of c)) w = ((resp, Some e, v), w') ->
  value_of (exec bs addOptions c w)
  = {| result := nil_result c;
       raw := if returns_response c then Returned resp else NotReturned;
       err := Some e |}.
Proof.
  intros Hin Hreq Hdo. by rewrite (exec_after_Do c w w' _ _ _ _ _ _ _ Hin Hreq Hdo).
Qed.

(** X4.  When the execution succeeds, every operation returns what [Do]
    decoded into a destination that started out empty (a zero [Build], a
    nil slice), with a nil error and, where the operation returns one, the
    raw response of [Do]. *)
Theorem success_returns_what_was_decoded (c : Call) (w w' : World)
    (method urlStr : string) (body : Body) (req : Request)
    (resp : option Response) (v : dest_type (dest_of c)) :
  In (EvNewRequest method urlStr body) (trace_of (exec bs addOptions c w)) ->
  NewRequest (client bs) method urlStr body = (req, None) ->
  Do (client bs) (dest_of c) req (fresh (dest_of c)) w = ((resp, None, v), w') ->
  value_of (exec bs addOptions c w)
  = {| result := decoded (dest_of c) v;
       raw := if returns_response c then Returned resp else NotReturned;
       err := None |}.
Proof.
  intros Hin Hreq Hdo. by rewrite (exec_after_Do c w w' _ _ _ _ _ _ _ Hin Hreq Hdo).
Qed.

(** X5.  A call whose request was constructed changes the world by its one
    execution and in no other way: it leaves the world as [Do] left it,
    whether [Do] failed or not. *)
Theorem the_round_trip_is_the_whole_effect (c : Call) (w w' : World)
    (method urlStr : string) (body : Body) (req : Request)
    (resp : option Response) (e : option Error) (v : dest_type (dest_of c)) :
  In (EvNewRequest method urlStr body) (trace_of (exec bs addOptions c w)) ->
  NewRequest (client bs) method urlStr body = (req, None) ->
  Do (client bs) (dest_of c) req (fresh (dest_of c)) w = ((resp, e, v), w') ->
  world_of (exec bs addOptions c w) = w'
  /\ executions (trace_of (exec bs addOptions c w)) = 1%nat.
Proof.
  intros Hin Hreq Hdo. by rewrite (exec_after_Do c w w' _ _ _ _ _ _ _ Hin Hreq Hdo).
Qed.

(** X6.  No operation returns a result together with an error: whenever
    the error is not nil, the build pointer or the slice is nil. *)
Theorem an_error_comes_with_a_nil_result (c : Call) (w : World) (e : Error) :
  err (value_of (exec bs addOptions c w)) = Some e ->
  result (value_of (exec bs addOptions c w)) = nil_result c.
Proof.
  destruct c; unfold_ops; split_addOptions addOptions; cbn; try done;
    split_NewRequest; cbn; try done; split_Do; cbn; done.
Qed.

(** X7.  When [Do] succeeds without decoding anything, the operations that
    return a build return a pointer to an empty [Build], not nil, while a
    List operation returns a nil slice: a nil error from List does not
    promise a slice. *)
Theorem nothing_decoded (c : Call) (w w' : World)
    (method urlStr : string) (body : Body) (req : Request) (resp : option Response) :
  In (EvNewRequest method urlStr body) (trace_of (exec bs addOptions c w)) ->
  NewRequest (client bs) method urlStr body = (req, None) ->
  Do (client bs) (dest_of c) req (fresh (dest_of c)) w
  = ((resp, None, fresh (dest_of c)), w') ->
  err (value_of (exec bs addOptions c w)) = None
  /\ result (value_of (exec bs addOptions c w))
     = if returns_build c then RBuild (Some Build.zero) else RBuilds None.
Proof.
  intros Hin Hreq Hdo. rewrite (exec_after_Do c w w' _ _ _ _ _ _ _ Hin Hreq Hdo).
  split; [done|]. by destruct c.
Qed.

(** ** Paths are put together as they come *)

Lemma append_assoc (a b c : string) : (a +:+ b) +:+ c = a +:+ (b +:+ c).
Proof.
  induction a as [|x a IH]; [done|].
  change (String x ((a +:+ b) +:+ c) = String x (a +:+ (b +:+ c))). by rewrite IH.
Qed.

Lemma length_append (a b : string) :
  String.length (a +:+ b) = (String.length a + String.length b)%nat.
Proof.
  induction a as [|x a IH]; [done|].
  change (S (String.length (a +:+ b)) = S (String.length a + String.length b)).
  by rewrite IH.
Qed.

Lemma cancel_is_no_rebuild_suffix (s t : string) : s +:+ "/cancel" <> t +:+ "/rebuild".
Proof.
  revert t. induction s as [|x s IH]; intros t Heq.
  - apply (f_equal String.length) in Heq. rewrite !length_append in Heq.
    cbn in Heq. lia.
  - destruct t as [|y t].
    + change (String x (s +:+ "/cancel") = "/rebuild") in Heq.
      injection Heq as _ Heq.
      pose proof (f_equal String.length Heq) as Hlen.
      rewrite length_append in Hlen. cbn in Hlen.
      destruct s; [discriminate Heq | cbn in Hlen; lia].
    + change (String x (s +:+ "/cancel") = String y (t +:+ "/rebuild")) in Heq.
      injection Heq as _ Heq. by apply (IH t).
Qed.

(** X8.  Arguments go into the path as they are, with nothing escaped: an
    organisation name that contains [/pipelines/] makes ListByOrg the very
    call ListByPipeline is, and a build id that ends in [/cancel] makes Get
    request the path of Cancel. *)
Theorem path_segments_are_not_escaped
    (org pipeline build : string) (opt : option BuildsListOptions.t) (w : World) :
  exec bs addOptions (CallListByOrg (org +:+ "/pipelines/" +:+ pipeline) opt) w
  = exec bs addOptions (CallListByPipeline org pipeline opt) w
  /\ constructed (trace_of (exec bs addOptions
                              (CallGet org pipeline (build +:+ "/cancel")) w))
     = [EvNewRequest "GET"
          ("v2/organizations/" +:+ org +:+ "/pipelines/" +:+ pipeline
           +:+ "/builds/" +:+ build +:+ "/cancel") BodyNil].
Proof.
  split.
  - cbn [exec].
    rewrite ListByOrg_is_list_from, ListByPipeline_is_list_from.
    by rewrite !append_assoc.
  - rewrite constructed_from_arguments. cbn [options_call]. by rewrite get_path.
Qed.

(** X9.  Whatever the arguments, Cancel never constructs the request of a
    Rebuild: both are PUTs, and their paths differ for every pair of
    argument triples. *)
Theorem cancel_is_never_a_rebuild
    (org pipeline build org' pipeline' build' : string) (w w' : World) :
  constructed (trace_of (exec bs addOptions (CallCancel org pipeline build) w))
  <> constructed (trace_of (exec bs addOptions (CallRebuild org' pipeline' build') w')).
Proof.
  rewrite !constructed_from_arguments. cbn [options_call].
  rewrite cancel_path, rebuild_path. intros [= Heq]. revert Heq.
  rewrite <- !append_assoc. change ("v2/organizations/" +:+ org) with
    (String.append "v2/organizations/" org).
  apply cancel_is_no_rebuild_suffix.
Qed.

(** ** Calls in sequence *)

Lemma executions_app (t1 t2 : list Event) :
  executions (t1 ++ t2) = (executions t1 + executions t2)%nat.
Proof. unfold executions. by rewrite List.filter_app, List.length_app. Qed.

Lemma constructed_app (t1 t2 : list Event) :
  constructed (t1 ++ t2) = constructed t1 ++ constructed t2.
Proof. apply List.filter_app. Qed.

Lemma executions_of_a_call (c : Call) (w : World) :
  (executions (trace_of (exec bs addOptions c w)) <= 1)%nat.
Proof.
  pose proof (exec_course bs addOptions c w) as Hc. cbn zeta in Hc.
  remember (value_of (exec bs addOptions c w)) as out.
  remember (world_of (exec bs addOptions c w)) as w1.
  remember (trace_of (exec bs addOptions c w)) as t.
  destruct Hc; cbn; lia.
Qed.

Lemma exec_all_cons (c : Call) (cs : list Call) (w : World) :
  exec_all bs addOptions (c :: cs) w
  = let r1 := exec bs addOptions c w in
    let r2 := exec_all bs addOptions cs (world_of r1) in
    (value_of r1 :: value_of r2, world_of r2, trace_of r1 ++ trace_of r2).
Proof.
  cbn [exec_all]. unfold mbind, M_bind, mret, M_ret. cbn zeta.
  destruct (exec bs addOptions c w) as [[o w1] t1]. cbn.
  destruct (exec_all bs addOptions cs w1) as [[os w2] t2]. cbn.
  by rewrite app_nil_r.
Qed.

(** X10.  Calls made one after the other do not get in each other's way:
    every call yields an outcome, the transport is executed at most once
    per call, and the requests constructed are those each call constructs
    on its own, in order, whatever the calls before it did to the world. *)
Theorem calls_in_sequence (cs : list Call) (w w0 : World) :
  let r := exec_all bs addOptions cs w in
  List.length (value_of r) = List.length cs
  /\ (executions (trace_of r) <= List.length cs)%nat
  /\ constructed (trace_of r)
     = flat_map (fun c => constructed (trace_of (exec bs addOptions c w0))) cs.
Proof.
  cbn zeta. revert w. induction cs as [|c cs IH]; intros w; [done|].
  rewrite exec_all_cons. cbn zeta.
  destruct (IH (world_of (exec bs addOptions c w))) as (Hlen & Hrun & Hcon).
  unfold value_of, world_of, trace_of in *. cbn [fst snd] in *.
  rewrite executions_app, constructed_app. cbn [List.length flat_map].
  rewrite Hlen, Hcon.
  pose proof (executions_of_a_call c w) as Hone. unfold trace_of in Hone.
  pose proof (constructed_from_arguments bs addOptions c w) as H1.
  pose proof (constructed_from_arguments bs addOptions c w0) as H2.
  unfold trace_of in H1, H2. rewrite H1, <- H2.
  split; [done|]. split; [lia | done].
Qed.

End Round_trip.

(** ** More on the body of Create *)

Lemma member_optional (k key : string) (v : value) (rest : list (string * json)) :
  member k (optional key v ++ rest)
  = if String.eqb k key
    then (if isEmptyValue v then member k rest else Some (marshal v))
    else member k rest.
Proof.
  unfold optional. destruct (isEmptyValue v); cbn; by destruct (String.eqb k key).
Qed.

Lemma member_absent (k : string) (members : list (string * json)) :
  ~ In k (keys members) -> member k members = None.
Proof.
  induction members as [|[k' v] members IH]; cbn; [done|].
  intros Hk. destruct (String.eqb_spec k k') as [-> | _]; [tauto|].
  apply IH. tauto.
Qed.

Lemma author_members_eq (a : Author.t) :
  author_members a
  = optional "name" (VString (Author.Name a))
    ++ optional "email" (VString (Author.Email a)).
Proof.
  unfold author_members, reflect_Author, optional. cbn.
  by rewrite !app_nil_r.
Qed.

(** What stands under each key of an encoded [CreateBuild]. *)
Lemma body_lookup (b : CreateBuild.t) :
  member "commit" (body_members b)
  = Some (JStr (coerce_utf8 (CreateBuild.Commit b)))
  /\ member "branch" (body_members b)
     = Some (JStr (coerce_utf8 (CreateBuild.Branch b)))
  /\ member "message" (body_members b)
     = Some (JStr (coerce_utf8 (CreateBuild.Message b)))
  /\ member "author" (body_members b)
     = Some (JObj (author_members (CreateBuild.Author b)))
  /\ member "env" (body_members b)
     = (if bool_decide (CreateBuild.Env b = ∅) then None
        else Some (marshal (reflect_map (CreateBuild.Env b))))
  /\ member "meta_data" (body_members b)
     = (if bool_decide (CreateBuild.MetaData b = ∅) then None
        else Some (marshal (reflect_map (CreateBuild.MetaData b))))
  /\ member "ignore_pipeline_branch_filters" (body_members b)
     = (if CreateBuild.IgnorePipelineBranchFilters b then Some (JBool true) else None)
  /\ member "pull_request_base_branch" (body_members b)
     = (if bool_decide (CreateBuild.PullRequestBaseBranch b = "") then None
        else Some (JStr (coerce_utf8 (CreateBuild.PullRequestBaseBranch b))))
  /\ member "pull_request_id" (body_members b)
     = (if bool_decide (CreateBuild.PullRequestID b = 0) then None
        else Some (JNum (CreateBuild.PullRequestID b)))
  /\ member "pull_request_repository" (body_members b)
     = (if bool_decide (CreateBuild.PullRequestRepository b = "") then None
        else Some (JStr (coerce_utf8 (CreateBuild.PullRequestRepository b)))).
Proof.
  rewrite body_members_eq.
  rewrite <- (app_nil_r (optional "pull_request_repository" _)).
  cbn [app member String.eqb Ascii.eqb Bool.eqb].
  rewrite !member_optional.
  cbn [String.eqb Ascii.eqb Bool.eqb member].
  rewrite !isEmptyValue_map, !isEmptyValue_string, isEmptyValue_int.
  repeat split; try reflexivity.
  by destruct (CreateBuild.IgnorePipelineBranchFilters b).
Qed.

(** X11.  What Create sends for any [CreateBuild]: [commit], [branch] and
    [message] always, even when these are empty; [env], [meta_data],
    [ignore_pipeline_branch_filters], [pull_request_base_branch],
    [pull_request_id] and [pull_request_repository] exactly when the field
    is not empty (the map has an entry, the flag is set, the string is not
    empty, the number is not 0); each with the value of the field as the
    encoder writes it, which for a string is the string with U+FFFD in the
    place of every byte that is not valid UTF-8; and no key that is not a
    tag of the struct. *)
Theorem body_holds_the_fields (b : CreateBuild.t) :
  member "commit" (body_members b)
  = Some (JStr (coerce_utf8 (CreateBuild.Commit b)))
  /\ member "branch" (body_members b)
     = Some (JStr (coerce_utf8 (CreateBuild.Branch b)))
  /\ member "message" (body_members b)
     = Some (JStr (coerce_utf8 (CreateBuild.Message b)))
  /\ member "env" (body_members b)
     = (if bool_decide (CreateBuild.Env b = ∅) then None
        else Some (marshal (reflect_map (CreateBuild.Env b))))
  /\ member "meta_data" (body_members b)
     = (if bool_decide (CreateBuild.MetaData b = ∅) then None
        else Some (marshal (reflect_map (CreateBuild.MetaData b))))
  /\ member "ignore_pipeline_branch_filters" (body_members b)
     = (if CreateBuild.IgnorePipelineBranchFilters b then Some (JBool true) else None)
  /\ member "pull_request_base_branch" (body_members b)
     = (if bool_decide (CreateBuild.PullRequestBaseBranch b = "") then None
        else Some (JStr (coerce_utf8 (CreateBuild.PullRequestBaseBranch b))))
  /\ member "pull_request_id" (body_members b)
     = (if bool_decide (CreateBuild.PullRequestID b = 0) then None
        else Some (JNum (CreateBuild.PullRequestID b)))
  /\ member "pull_request_repository" (body_members b)
     = (if bool_decide (CreateBuild.PullRequestRepository b = "") then None
        else Some (JStr (coerce_utf8 (CreateBuild.PullRequestRepository b))))
  /\ forall k : string,
       ~ In k (map ftag CreateBuild_decl) -> member k (body_members b) = None.
Proof.
  destruct (body_lookup b) as (Hc & Hb & Hm & _ & He & Hd & Hi & Hp & Hn & Hr).
  repeat (split; [assumption|]).
  intros k Hk. apply member_absent. intros Hin. apply Hk.
  rewrite body_keys in Hin. cbn in Hin |- *.
  repeat case_bool_decide;
    destruct (CreateBuild.IgnorePipelineBranchFilters b);
    cbn in Hin; intuition.
Qed.

(** X12.  The keys of an encoded [CreateBuild] come in the order of the
    declaration and none comes twice. *)
Theorem body_keys_follow_the_declaration (b : CreateBuild.t) :
  keys (body_members b) `sublist_of` map ftag CreateBuild_decl
  /\ NoDup (keys (body_members b)).
Proof.
  assert (keys (body_members b) `sublist_of` map ftag CreateBuild_decl) as Hsub.
  { rewrite body_keys. cbn.
    repeat case_bool_decide;
      destruct (CreateBuild.IgnorePipelineBranchFilters b); cbn;
      repeat first [apply sublist_nil | apply sublist_skip | apply sublist_cons]. }
  split; [exact Hsub|].
  eapply sublist_NoDup; [|exact Hsub].
  apply (bool_decide_unpack _). by vm_compute.
Qed.

Lemma author_lookup (a : Author.t) :
  member "name" (author_members a)
  = (if bool_decide (Author.Name a = "") then None
     else Some (JStr (coerce_utf8 (Author.Name a))))
  /\ member "email" (author_members a)
     = (if bool_decide (Author.Email a = "") then None
        else Some (JStr (coerce_utf8 (Author.Email a)))).
Proof.
  rewrite author_members_eq.
  rewrite <- (app_nil_r (optional "email" _)).
  rewrite !member_optional.
  cbn [String.eqb Ascii.eqb Bool.eqb member].
  rewrite !isEmptyValue_string. by repeat case_bool_decide.
Qed.

(** X13.  The author goes into every body as an object of its own, which
    holds [name] and [email] exactly when they are not empty, each as the
    encoder writes a string (U+FFFD in the place of every byte that is not
    valid UTF-8), and is the empty object exactly when both are empty. *)
Theorem author_is_sent_as_an_object (b : CreateBuild.t) :
  let a := CreateBuild.Author b in
  member "author" (body_members b) = Some (JObj (author_members a))
  /\ member "name" (author_members a)
     = (if bool_decide (Author.Name a = "") then None
        else Some (JStr (coerce_utf8 (Author.Name a))))
  /\ member "email" (author_members a)
     = (if bool_decide (Author.Email a = "") then None
        else Some (JStr (coerce_utf8 (Author.Email a))))
  /\ (author_members a = [] <-> Author.Name a = "" /\ Author.Email a = "").
Proof.
  cbn zeta. destruct (body_lookup b) as (_ & _ & _ & Ha & _).
  destruct (author_lookup (CreateBuild.Author b)) as [Hn He].
  repeat (split; [assumption|]).
  rewrite author_members_eq. unfold optional. rewrite !isEmptyValue_string.
  repeat case_bool_decide; cbn; split; try done; intros []; done.
Qed.

(** ** The body tells the build *)

Lemma insert_by_key_Permutation {A : Type} (x : string * A) (l : list (string * A)) :
  insert_by_key x l ≡ₚ x :: l.
Proof.
  induction l as [|y l IH]; cbn; [done|].
  destruct (String.leb (fst x) (fst y)); [done|].
  rewrite IH. apply Permutation_swap.
Qed.

Lemma sort_by_key_Permutation {A : Type} (l : list (string * A)) :
  sort_by_key l ≡ₚ l.
Proof.
  induction l as [|x l IH]; cbn; [done|].
  by rewrite insert_by_key_Permutation, IH.
Qed.

Lemma map_injective {A B : Type} (f : A -> B) (l l' : list A) :
  (forall x y, f x = f y -> x = y) -> map f l = map f l' -> l = l'.
Proof.
  intros Hf. revert l'. induction l as [|x l IH]; intros [|y l']; cbn; try done.
  intros [= Hxy Hl]. f_equal; auto.
Qed.

Lemma map_fixes {A : Type} (f : A -> A) (l : list A) :
  (forall x, In x l -> f x = x) -> map f l = l.
Proof.
  induction l as [|x l IH]; cbn; [done|].
  intros Hf. rewrite Hf by (by left). f_equal. apply IH. intros y Hy. apply Hf. by right.
Qed.

(** A map of valid strings is encoded with its keys and values as they
    are. *)
Lemma marshal_clean_map (m : gmap string string) :
  clean_map m ->
  marshal (reflect_map m)
  = JObj (sort_by_key
            (map (fun kv : string * string => (fst kv, JStr (snd kv))) (map_to_list m))).
Proof.
  intros Hm. unfold reflect_map. cbn [marshal]. rewrite List.map_map. cbn [fst snd marshal].
  assert (forall kv : string * string,
             In kv (map_to_list m) -> utf8_clean (fst kv) /\ utf8_clean (snd kv)) as Hin.
  { intros [k v] Hkv. apply list_elem_of_In, elem_of_map_to_list in Hkv.
    exact (Hm k v Hkv). }
  f_equal.
  replace (map (fun x : string * string => (fst x, JStr (coerce_utf8 (snd x))))
             (map_to_list m))
    with (map (fun kv : string * string => (fst kv, JStr (snd kv))) (map_to_list m)).
  - apply map_fixes. intros [k j] Hkj. cbn.
    apply In_sort_by_key, in_map_iff in Hkj as ([k0 v0] & [= <- <-] & Hkv).
    cbn. f_equal. exact (proj1 (Hin _ Hkv)).
  - apply map_ext_in. intros kv Hkv. f_equal. f_equal.
    symmetry. exact (proj2 (Hin _ Hkv)).
Qed.

Lemma marshal_map_injective (m m' : gmap string string) :
  clean_map m -> clean_map m' ->
  marshal (reflect_map m) = marshal (reflect_map m') -> m = m'.
Proof.
  intros Hm Hm'. rewrite (marshal_clean_map m Hm), (marshal_clean_map m' Hm').
  intros [= Hsort]. apply map_to_list_inj.
  assert (map (fun kv : string * string => (fst kv, JStr (snd kv))) (map_to_list m)
          ≡ₚ map (fun kv : string * string => (fst kv, JStr (snd kv))) (map_to_list m'))
    as Hperm.
  { rewrite <- (sort_by_key_Permutation (map _ (map_to_list m))), Hsort.
    apply sort_by_key_Permutation. }
  apply Permutation_map_inv in Hperm as (l3 & Heq & Hl3).
  apply map_injective in Heq; [|by intros [] [] [= -> ->]].
  by rewrite Heq, Hl3.
Qed.

Lemma author_members_injective (a a' : Author.t) :
  clean_author a -> clean_author a' ->
  author_members a = author_members a' -> a = a'.
Proof.
  intros [Cn Ce] [Cn' Ce'] Heq.
  destruct (author_lookup a) as [Hn He], (author_lookup a') as [Hn' He'].
  rewrite Heq, Hn' in Hn. rewrite Heq, He' in He.
  unfold utf8_clean in *. rewrite Cn, Cn' in Hn. rewrite Ce, Ce' in He.
  destruct a as [n e], a' as [n' e']. cbn in *.
  f_equal; repeat case_bool_decide; congruence.
Qed.

(** Without the condition of X14 bodies can coincide: a commit that is the
    single byte FF and one that is the single byte FE are both sent as
    U+FFFD. *)
Example invalid_bytes_coincide :
  marshal (VString (String "255"%char EmptyString))
  = marshal (VString (String "254"%char EmptyString)).
Proof. reflexivity. Qed.

(** X14.  Among [CreateBuild] values whose strings are all valid UTF-8,
    leaving out the empty fields loses nothing: two different ones are
    never encoded as the same body. *)
Theorem different_builds_different_bodies (b b' : CreateBuild.t) :
  clean_build b -> clean_build b' ->
  b <> b' -> marshal (reflect_CreateBuild b) <> marshal (reflect_CreateBuild b').
Proof.
  intros (Cc & Cb & Cmsg & Ca & Ce & Cd & Cp & Cr)
         (Cc' & Cb' & Cmsg' & Ca' & Ce' & Cd' & Cp' & Cr') Hne Heq.
  apply Hne.
  assert (body_members b = body_members b') as Hm by (unfold body_members; by rewrite Heq).
  destruct (body_lookup b) as (Hc & Hb & Hmsg & Ha & He & Hd & Hi & Hp & Hn & Hr).
  destruct (body_lookup b') as (Hc' & Hb' & Hmsg' & Ha' & He' & Hd' & Hi' & Hp' & Hn' & Hr').
  rewrite Hm in Hc, Hb, Hmsg, Ha, He, Hd, Hi, Hp, Hn, Hr.
  rewrite Hc' in Hc. rewrite Hb' in Hb. rewrite Hmsg' in Hmsg. rewrite Ha' in Ha.
  rewrite He' in He. rewrite Hd' in Hd. rewrite Hi' in Hi. rewrite Hp' in Hp.
  rewrite Hn' in Hn. rewrite Hr' in Hr.
  clear Hc' Hb' Hmsg' Ha' He' Hd' Hi' Hp' Hn' Hr' Hm Heq Hne.
  unfold utf8_clean in Cc, Cb, Cmsg, Cp, Cr, Cc', Cb', Cmsg', Cp', Cr'.
  rewrite Cc, Cc' in Hc. rewrite Cb, Cb' in Hb. rewrite Cmsg, Cmsg' in Hmsg.
  rewrite Cp, Cp' in Hp. rewrite Cr, Cr' in Hr.
  clear Cc Cb Cmsg Cp Cr Cc' Cb' Cmsg' Cp' Cr'.
  assert (CreateBuild.Author b = CreateBuild.Author b')
    by (apply author_members_injective; [assumption | assumption | congruence]).
  assert (CreateBuild.Env b = CreateBuild.Env b').
  { revert He. clear - Ce Ce'. repeat case_bool_decide; try congruence.
    intros He. apply marshal_map_injective; [assumption | assumption | congruence]. }
  assert (CreateBuild.MetaData b = CreateBuild.MetaData b').
  { revert Hd. clear - Cd Cd'. repeat case_bool_decide; try congruence.
    intros Hd. apply marshal_map_injective; [assumption | assumption | congruence]. }
  assert (CreateBuild.IgnorePipelineBranchFilters b
          = CreateBuild.IgnorePipelineBranchFilters b')
    by (revert Hi; clear; do 2 case_match; congruence).
  assert (CreateBuild.PullRequestBaseBranch b = CreateBuild.PullRequestBaseBranch b')
    by (revert Hp; clear; repeat case_bool_decide; congruence).
  assert (CreateBuild.PullRequestID b = CreateBuild.PullRequestID b')
    by (revert Hn; clear; repeat case_bool_decide; congruence).
  assert (CreateBuild.PullRequestRepository b = CreateBuild.PullRequestRepository b')
    by (revert Hr; clear; repeat case_bool_decide; congruence).
  destruct b, b'. cbn in *. congruence.
Qed.

End Properties.

(** * The theorems at work on the test double *)

Section Witnesses.
#[local] Existing Instance demo_decls.

(** C2 does not extend to [CreateBuild]: its optional field
    [PullRequestBaseBranch] is a plain string, which after decoding is the
    same for an absent key and for an empty string. *)
Lemma CreateBuild_optional_field_unmarked :
  ~ (forall (s : list field) (f : field),
        In s [Build_decl; CreateBuild_decl; Creator_decl; PullRequest_decl] ->
        In f s -> omitempty f = true -> nullable (ftype f) = true)
  /\ (let f := Field "PullRequestBaseBranch" TString
                 "pull_request_base_branch" ["omitempty"] in
      In f CreateBuild_decl
      /\ omitempty f = true
      /\ nullable (ftype f) = false
      /\ decode_field (ftype f) None = decode_field (ftype f) (Some (JStr ""))).
Proof.
  split.
  - intros Hall.
    specialize (Hall CreateBuild_decl
                  (Field "PullRequestBaseBranch" TString
                     "pull_request_base_branch" ["omitempty"])).
    cbn in Hall. discriminate Hall; auto 10.
  - cbn. repeat split; auto 10.
Qed.

Lemma response_optional_fields_are_nullable_witness :
  let f := Field "ID" (TPtr TString) "id" ["omitempty"] in
  In Build_decl [Build_decl; Creator_decl; PullRequest_decl]
  /\ In f Build_decl
  /\ omitempty f = true
  /\ nullable (ftype f) = true
  /\ decode_field (ftype f) None <> decode_field (ftype f) (Some (JStr ""))
  /\ decode_field (ftype f) (Some JNull) = decode_field (ftype f) None.
Proof.
  cbn zeta.
  assert (In Build_decl [Build_decl; Creator_decl; PullRequest_decl]) as Hs
    by (left; reflexivity).
  assert (In (Field "ID" (TPtr TString) "id" ["omitempty"]) Build_decl) as Hf
    by (left; reflexivity).
  destruct (response_optional_fields_are_nullable _ _ Hs Hf eq_refl)
    as (Hn & Hd & Hnull).
  split; [exact Hs|]. split; [exact Hf|]. split; [reflexivity|].
  split; [exact Hn|]. split; [|exact Hnull]. apply Hd. discriminate.
Defined.

Lemma list_operations_encode_options_witness :
  IsZero Time_zero = true
  /\ ListOptions_query ListOptions_zero = []
  /\ head (trace_of (List demo_service addOptions_model
                       (Some (BuildsListOptions.mk "" Time_zero Time_zero Time_zero
                                [] "main" "" ListOptions_zero))
                       demo_world))
     = Some (EvNewRequest "GET" "v2/builds?branch=main" BodyNil).
Proof.
  assert (IsZero Time_zero = true) as Hzero by reflexivity.
  assert (ListOptions_query ListOptions_zero = []) as Hpage by reflexivity.
  destruct (list_operations_encode_options demo_service demo_world Hzero Hpage)
    as (_ & _ & _ & _ & Hscenario).
  split; [exact Hzero|]. split; [exact Hpage|]. exact Hscenario.
Defined.

Lemma Get_transport_error_witness :
  let u := "v2/organizations/acme/pipelines/widget-ci/builds/9" in
  let req : Request := Some ("GET", u, None) in
  let w' : World := (fst demo_world, 1%nat) in
  NewRequest demo_client "GET" u BodyNil = (req, None)
  /\ Do demo_client dBuild req Build.zero demo_world
     = ((Some 404%Z, Some "404 Not Found", Build.zero), w')
  /\ value_of (Get demo_service "acme" "widget-ci" "9" demo_world)
     = (None, Some 404%Z, Some "404 Not Found").
Proof.
  cbn zeta.
  assert (NewRequest demo_client "GET"
            "v2/organizations/acme/pipelines/widget-ci/builds/9" BodyNil
          = (Some ("GET", "v2/organizations/acme/pipelines/widget-ci/builds/9",
                   None), None)) as Hreq by reflexivity.
  assert (Do demo_client dBuild
            (Some ("GET", "v2/organizations/acme/pipelines/widget-ci/builds/9",
                   None))
            Build.zero demo_world
          = ((Some 404%Z, Some "404 Not Found", Build.zero),
             (fst demo_world, 1%nat))) as Hdo by (vm_compute; reflexivity).
  split; [exact Hreq|]. split; [exact Hdo|].
  exact (Get_transport_error demo_service "acme" "widget-ci" "9" _ _ _ _ _ _
           Hreq Hdo).
Defined.

Lemma construction_error_stops_the_call_witness :
  let c := CallGet ("acme" +:+ line_feed) "widget-ci" "7" in
  let e := "net/url: invalid control character in URL" in
  let r := exec demo_service addOptions_model c demo_world in
  construction_fails demo_service addOptions_model c demo_world e
  /\ err (value_of r) = Some e
  /\ is_nil_result (result (value_of r)) = true
  /\ no_response (raw (value_of r))
  /\ executions (trace_of r) = 0%nat
  /\ world_of r = demo_world.
Proof.
  cbn zeta.
  assert (construction_fails demo_service addOptions_model
            (CallGet ("acme" +:+ line_feed) "widget-ci" "7") demo_world
            "net/url: invalid control character in URL") as Hfail.
  { left. eexists _, _, _. split; [left; reflexivity | reflexivity]. }
  split; [exact Hfail|].
  exact (construction_error_stops_the_call demo_service addOptions_model _ _ _ Hfail).
Defined.

Lemma nil_error_gives_a_build_witness :
  let c := CallCreate "acme" "widget-ci" (Some deploy) in
  returns_build c = true
  /\ err (value_of (exec demo_service addOptions_model c demo_world)) = None
  /\ exists b : Build.t,
       result (value_of (exec demo_service addOptions_model c demo_world))
       = RBuild (Some b).
Proof.
  cbn zeta.
  assert (err (value_of (exec demo_service addOptions_model
                           (CallCreate "acme" "widget-ci" (Some deploy))
                           demo_world)) = None) as Hnil
    by (vm_compute; reflexivity).
  split; [reflexivity|]. split; [exact Hnil|].
  exact (nil_error_gives_a_build demo_service addOptions_model
           (CallCreate "acme" "widget-ci" (Some deploy)) demo_world eq_refl Hnil).
Defined.

Lemma Cancel_Rebuild_drop_response_witness :
  (Cancel = Cancel \/ Cancel = Rebuild)
  /\ executions (trace_of (Cancel demo_service "acme" "widget-ci" "9" demo_world))
     = 1%nat
  /\ snd (value_of (Cancel demo_service "acme" "widget-ci" "9" demo_world))
     = Some "404 Not Found"
  /\ value_of (Cancel demo_service "acme" "widget-ci" "9" demo_world)
     = (None, Some "404 Not Found").
Proof.
  assert (Cancel = Cancel \/ Cancel = Rebuild) as Hop by (left; reflexivity).
  assert (executions (trace_of (Cancel demo_service "acme" "widget-ci" "9" demo_world))
          = 1%nat) as Hrun by (vm_compute; reflexivity).
  assert (snd (value_of (Cancel demo_service "acme" "widget-ci" "9" demo_world))
          = Some "404 Not Found") as Herr by (vm_compute; reflexivity).
  destruct (Cancel_Rebuild_drop_response Cancel demo_service "acme" "widget-ci" "9"
              demo_world "404 Not Found" Hop Hrun Herr) as [Hvalue _].
  split; [exact Hop|]. split; [exact Hrun|]. split; [exact Herr|]. exact Hvalue.
Defined.

(** The double at work: a query with every kind of filter, and a build
    created and decoded. *)
Example demo_query :
  addOptions_model "v2/builds"
    (Some (BuildsListOptions.mk "me@example.com" "2020-01-01T00:00:00+01:00"
             Time_zero Time_zero ["running"; "passed"] "main" "" (2, 30)%Z))
  = ("v2/builds?branch=main&created_from=2020-01-01T00%3A00%3A00%2B01%3A00"
     +:+ "&creator=me%40example.com&page=2&per_page=30"
     +:+ "&state%5B%5D=running&state%5B%5D=passed",
     None).
Proof. vm_compute. reflexivity. Qed.

Example demo_create :
  value_of (Create demo_service "acme" "widget-ci" (Some deploy) demo_world)
  = (Some (demo_build "v2/organizations/acme/pipelines/widget-ci/builds" "scheduled"),
     Some 200%Z, None).
Proof. vm_compute. reflexivity. Qed.

End Witnesses.

(** * More of builds.go on the test doubles *)

Section More_witnesses.
#[local] Existing Instance demo_decls.

Lemma executes_only_what_it_constructed_witness :
  let c := CallGet "acme" "widget-ci" "7" in
  let u := "v2/organizations/acme/pipelines/widget-ci/builds/7" in
  let req : Request := Some ("GET", u, None) in
  In (EvDo req) (trace_of (exec demo_service addOptions_model c demo_world))
  /\ exists (method urlStr : string) (body : Body),
       NewRequest demo_client method urlStr body = (req, None)
       /\ trace_of (exec demo_service addOptions_model c demo_world)
          = [EvNewRequest method urlStr body; EvDo req].
Proof.
  cbn zeta.
  assert (In (EvDo (Some ("GET", "v2/organizations/acme/pipelines/widget-ci/builds/7",
                          None) : Request))
             (trace_of (exec demo_service addOptions_model
                          (CallGet "acme" "widget-ci" "7") demo_world))) as Hin
    by (vm_compute; right; left; reflexivity).
  split; [exact Hin|].
  exact (executes_only_what_it_constructed demo_service addOptions_model _ _ _ Hin).
Defined.

Lemma transport_error_reaches_the_caller_witness :
  let c := CallCreate "acme" "other" (Some deploy) in
  let u := "v2/organizations/acme/pipelines/other/builds" in
  let req : Request := Some ("POST", u, encode_body (BodyCreateBuild (Some deploy))) in
  let w' : World := (fst demo_world, 1%nat) in
  In (EvNewRequest "POST" u (BodyCreateBuild (Some deploy)))
     (trace_of (exec demo_service addOptions_model c demo_world))
  /\ NewRequest demo_client "POST" u (BodyCreateBuild (Some deploy)) = (req, None)
  /\ Do demo_client dBuild req Build.zero demo_world
     = ((Some 404%Z, Some "404 Not Found", Build.zero), w')
  /\ value_of (exec demo_service addOptions_model c demo_world)
     = {| result := RBuild None; raw := Returned (Some 404%Z);
          err := Some "404 Not Found" |}.
Proof.
  cbn zeta.
  assert (In (EvNewRequest "POST" "v2/organizations/acme/pipelines/other/builds"
                (BodyCreateBuild (Some deploy)))
             (trace_of (exec demo_service addOptions_model
                          (CallCreate "acme" "other" (Some deploy)) demo_world))) as Hin
    by (vm_compute; left; reflexivity).
  assert (NewRequest demo_client "POST" "v2/organizations/acme/pipelines/other/builds"
            (BodyCreateBuild (Some deploy))
          = (Some ("POST", "v2/organizations/acme/pipelines/other/builds",
                   encode_body (BodyCreateBuild (Some deploy))), None)) as Hreq
    by reflexivity.
  assert (Do demo_client dBuild
            (Some ("POST", "v2/organizations/acme/pipelines/other/builds",
                   encode_body (BodyCreateBuild (Some deploy))))
            Build.zero demo_world
          = ((Some 404%Z, Some "404 Not Found", Build.zero),
             (fst demo_world, 1%nat))) as Hdo by (vm_compute; reflexivity).
  split; [exact Hin|]. split; [exact Hreq|]. split; [exact Hdo|].
  exact (transport_error_reaches_the_caller demo_service addOptions_model
           (CallCreate "acme" "other" (Some deploy)) _ _ _ _ _ _ _ _ _ Hin Hreq Hdo).
Defined.

Lemma success_returns_what_was_decoded_witness :
  let c := CallGet "acme" "widget-ci" "7" in
  let u := "v2/organizations/acme/pipelines/widget-ci/builds/7" in
  let req : Request := Some ("GET", u, None) in
  let w' : World := (fst demo_world, 1%nat) in
  In (EvNewRequest "GET" u BodyNil)
     (trace_of (exec demo_service addOptions_model c demo_world))
  /\ NewRequest demo_client "GET" u BodyNil = (req, None)
  /\ Do demo_client dBuild req Build.zero demo_world
     = ((Some 200%Z, None, demo_build u "running"), w')
  /\ value_of (exec demo_service addOptions_model c demo_world)
     = {| result := RBuild (Some (demo_build u "running"));
          raw := Returned (Some 200%Z); err := None |}.
Proof.
  cbn zeta.
  assert (In (EvNewRequest "GET" "v2/organizations/acme/pipelines/widget-ci/builds/7"
                BodyNil)
             (trace_of (exec demo_service addOptions_model
                          (CallGet "acme" "widget-ci" "7") demo_world))) as Hin
    by (vm_compute; left; reflexivity).
  assert (NewRequest demo_client "GET"
            "v2/organizations/acme/pipelines/widget-ci/builds/7" BodyNil
          = (Some ("GET", "v2/organizations/acme/pipelines/widget-ci/builds/7", None),
             None)) as Hreq by reflexivity.
  assert (Do demo_client dBuild
            (Some ("GET", "v2/organizations/acme/pipelines/widget-ci/builds/7", None))
            Build.zero demo_world
          = ((Some 200%Z, None,
              demo_build "v2/organizations/acme/pipelines/widget-ci/builds/7" "running"),
             (fst demo_world, 1%nat))) as Hdo by (vm_compute; reflexivity).
  split; [exact Hin|]. split; [exact Hreq|]. split; [exact Hdo|].
  exact (success_returns_what_was_decoded demo_service addOptions_model
           (CallGet "acme" "widget-ci" "7") _ _ _ _ _ _ _ _ Hin Hreq Hdo).
Defined.

Lemma the_round_trip_is_the_whole_effect_witness :
  let c := CallCancel "acme" "widget-ci" "7" in
  let u := "v2/organizations/acme/pipelines/widget-ci/builds/7/cancel" in
  let req : Request := Some ("PUT", u, None) in
  let w' : World := (fst demo_world, 1%nat) in
  In (EvNewRequest "PUT" u BodyNil)
     (trace_of (exec demo_service addOptions_model c demo_world))
  /\ NewRequest demo_client "PUT" u BodyNil = (req, None)
  /\ Do demo_client dBuild req Build.zero demo_world
     = ((Some 200%Z, None, demo_build u "canceling"), w')
  /\ world_of (exec demo_service addOptions_model c demo_world) = w'
  /\ executions (trace_of (exec demo_service addOptions_model c demo_world)) = 1%nat.
Proof.
  cbn zeta.
  assert (In (EvNewRequest "PUT"
                "v2/organizations/acme/pipelines/widget-ci/builds/7/cancel" BodyNil)
             (trace_of (exec demo_service addOptions_model
                          (CallCancel "acme" "widget-ci" "7") demo_world))) as Hin
    by (vm_compute; left; reflexivity).
  assert (NewRequest demo_client "PUT"
            "v2/organizations/acme/pipelines/widget-ci/builds/7/cancel" BodyNil
          = (Some ("PUT", "v2/organizations/acme/pipelines/widget-ci/builds/7/cancel",
                   None), None)) as Hreq by reflexivity.
  assert (Do demo_client dBuild
            (Some ("PUT", "v2/organizations/acme/pipelines/widget-ci/builds/7/cancel",
                   None))
            Build.zero demo_world
          = ((Some 200%Z, None,
              demo_build "v2/organizations/acme/pipelines/widget-ci/builds/7/cancel"
                "canceling"),
             (fst demo_world, 1%nat))) as Hdo by (vm_compute; reflexivity).
  split; [exact Hin|]. split; [exact Hreq|]. split; [exact Hdo|].
  exact (the_round_trip_is_the_whole_effect demo_service addOptions_model
           (CallCancel "acme" "widget-ci" "7") _ _ _ _ _ _ _ _ _ Hin Hreq Hdo).
Defined.

Lemma an_error_comes_with_a_nil_result_witness :
  let c := CallRebuild "acme" "widget-ci" "9" in
  err (value_of (exec demo_service addOptions_model c demo_world))
  = Some "404 Not Found"
  /\ result (value_of (exec demo_service addOptions_model c demo_world))
     = RBuild None.
Proof.
  cbn zeta.
  assert (err (value_of (exec demo_service addOptions_model
                           (CallRebuild "acme" "widget-ci" "9") demo_world))
          = Some "404 Not Found") as Herr by (vm_compute; reflexivity).
  split; [exact Herr|].
  exact (an_error_comes_with_a_nil_result demo_service addOptions_model
           (CallRebuild "acme" "widget-ci" "9") demo_world _ Herr).
Defined.

Lemma nothing_decoded_witness :
  let c := CallList None in
  let req : Request := Some ("GET", "v2/builds", None) in
  let w' : World := (fst demo_world, 1%nat) in
  In (EvNewRequest "GET" "v2/builds" BodyNil)
     (trace_of (exec quiet_service addOptions_model c demo_world))
  /\ NewRequest quiet_client "GET" "v2/builds" BodyNil = (req, None)
  /\ Do quiet_client dBuilds req None demo_world = ((Some 204%Z, None, None), w')
  /\ err (value_of (exec quiet_service addOptions_model c demo_world)) = None
  /\ result (value_of (exec quiet_service addOptions_model c demo_world))
     = RBuilds None.
Proof.
  cbn zeta.
  assert (In (EvNewRequest "GET" "v2/builds" BodyNil)
             (trace_of (exec quiet_service addOptions_model (CallList None)
                          demo_world))) as Hin
    by (vm_compute; left; reflexivity).
  assert (NewRequest quiet_client "GET" "v2/builds" BodyNil
          = (Some ("GET", "v2/builds", None), None)) as Hreq by reflexivity.
  assert (Do quiet_client dBuilds (Some ("GET", "v2/builds", None)) None demo_world
          = ((Some 204%Z, None, None), (fst demo_world, 1%nat))) as Hdo
    by reflexivity.
  split; [exact Hin|]. split; [exact Hreq|]. split; [exact Hdo|].
  exact (nothing_decoded quiet_service addOptions_model (CallList None)
           _ _ _ _ _ _ _ Hin Hreq Hdo).
Defined.

Lemma body_holds_the_fields_witness :
  ~ In "id" (map ftag CreateBuild_decl)
  /\ member "id" (body_members deploy) = None.
Proof.
  assert (~ In "id" (map ftag CreateBuild_decl)) as Hk.
  { cbn. intros Hin. repeat (destruct Hin as [Heq | Hin]; [discriminate Heq|]).
    exact Hin. }
  destruct (body_holds_the_fields deploy) as (_ & _ & _ & _ & _ & _ & _ & _ & _ & Hno).
  split; [exact Hk|]. exact (Hno "id" Hk).
Defined.

Lemma different_builds_different_bodies_witness :
  let b' := CreateBuild.mk "abc123" "release" "deploy" Author.zero ∅ ∅ false "" 0 "" in
  clean_build deploy
  /\ clean_build b'
  /\ deploy <> b'
  /\ marshal (reflect_CreateBuild deploy) <> marshal (reflect_CreateBuild b').
Proof.
  cbn zeta.
  assert (clean_build deploy) as Hc.
  { unfold clean_build, clean_author, clean_map, utf8_clean. cbn.
    split; [reflexivity|]. split; [reflexivity|]. split; [reflexivity|].
    split; [split; reflexivity|].
    split; [apply map_Forall_empty|]. split; [apply map_Forall_empty|].
    split; reflexivity. }
  assert (clean_build
            (CreateBuild.mk "abc123" "release" "deploy" Author.zero ∅ ∅ false "" 0 ""))
    as Hc'.
  { unfold clean_build, clean_author, clean_map, utf8_clean. cbn.
    split; [reflexivity|]. split; [reflexivity|]. split; [reflexivity|].
    split; [split; reflexivity|].
    split; [apply map_Forall_empty|]. split; [apply map_Forall_empty|].
    split; reflexivity. }
  assert (deploy
          <> CreateBuild.mk "abc123" "release" "deploy" Author.zero ∅ ∅ false "" 0 "")
    as Hne by discriminate.
  split; [exact Hc|]. split; [exact Hc'|]. split; [exact Hne|].
  exact (different_builds_different_bodies _ _ Hc Hc' Hne).
Defined.

End More_witnesses.
